(** * BOT.py: the career guidance chatbot, embedded and verified

    The program is a Streamlit script.  Every interaction re-runs the
    script from the top: [load_dotenv()] at module level, then [main()].
    The embedding keeps the Python shape of the program:

    - [st.session_state] is one dictionary from string keys to values; it
      holds the visible transcript (a list of role/content dictionaries
      under the key "messages") and the LangChain chat histories (one
      [ChatMessageHistory] object per session id);
    - [os.environ] is a dictionary from names to strings;
    - everything the user can observe ([st.title], [st.error],
      [st.chat_message], ...) and every request made to the hosted model
      is recorded, in order, in an event log;
    - Python exceptions are results [Raise e]; the state reached when the
      exception was raised is kept, as in Python. *)

From Stdlib Require Import Ascii String List.
From stdpp Require Import gmap strings list fin_maps.
Import ListNotations.
Local Open Scope string_scope.
Local Open Scope list_scope.
Set Warnings "-register-all".

(** ** Characters that cannot be typed inside a literal *)

Definition nl : string := String (ascii_of_nat 10) EmptyString.
Definition dq : string := String (ascii_of_nat 34) EmptyString.

(** ** Knowledge table (BOT.py, lines 15-33) *)

(** The inner dictionaries all have the three keys "careers", "skills"
    and "resources", in this order. *)
Record KnowledgeEntry := {
  careers : list string;
  skills : list string;
  resources : list string
}.

(** A Python dict literal keeps insertion order, and [json.dumps] prints
    the entries in that order: the table is an association list. *)
Definition load_career_data : list (string * KnowledgeEntry) :=
  [ ("Computer Science",
     {| careers := ["Software Engineer"; "Data Scientist"; "Cybersecurity Analyst"];
        skills := ["Python"; "Java"; "Data Analysis"; "Cybersecurity"];
        resources := ["Coursera"; "LeetCode"; "TryHackMe"] |});
    ("Business",
     {| careers := ["Marketing Manager"; "Financial Analyst"; "Entrepreneur"];
        skills := ["Marketing"; "Finance"; "Leadership"];
        resources := ["LinkedIn Learning"; "Coursera"; "Harvard Business Review"] |});
    ("Biology",
     {| careers := ["Biomedical Researcher"; "Environmental Scientist"; "Pharmacist"];
        skills := ["Research"; "Lab Techniques"; "Data Analysis"];
        resources := ["PubMed"; "Khan Academy"; "Nature Journal"] |}) ].

(** [career_data[M]]: the first binding of a key. *)
Fixpoint dict_get {V : Type} (k : string) (d : list (string * V)) : option V :=
  match d with
  | [] => None
  | (k', v) :: d' => if String.eqb k k' then Some v else dict_get k d'
  end.

Definition dict_keys {V : Type} (d : list (string * V)) : list string :=
  map fst d.

(** ** [json.dumps(career_data, indent=2)] (BOT.py, line 58) *)

Module Json.

Inductive value :=
| JString (s : string)
| JArray (items : list value)
| JObject (members : list (string * value)).

Definition hex_digit (n : nat) : ascii :=
  match n with
  | 0 => "0" | 1 => "1" | 2 => "2" | 3 => "3" | 4 => "4" | 5 => "5"
  | 6 => "6" | 7 => "7" | 8 => "8" | 9 => "9" | 10 => "a" | 11 => "b"
  | 12 => "c" | 13 => "d" | 14 => "e" | _ => "f"
  end%char.

(** [ensure_ascii=True]: the quote and the backslash are escaped, the
    usual control characters get their short form, and every other code
    point outside the range from the space to the tilde is written
    [\u00XX] (a character of a Rocq string is a code point below 256). *)
Definition escape_char (c : ascii) : string :=
  let n := nat_of_ascii c in
  if Nat.eqb n 34 then "\" +:+ dq
  else if Nat.eqb n 92 then "\\"
  else if Nat.eqb n 10 then "\n"
  else if Nat.eqb n 13 then "\r"
  else if Nat.eqb n 9 then "\t"
  else if Nat.eqb n 8 then "\b"
  else if Nat.eqb n 12 then "\f"
  else if (Nat.leb 32 n && Nat.leb n 126)%bool then String c EmptyString
  else "\u00" +:+ String (hex_digit (n / 16)) (String (hex_digit (n mod 16)) EmptyString).

Fixpoint escape (s : string) : string :=
  match s with
  | EmptyString => EmptyString
  | String c s' => escape_char c +:+ escape s'
  end.

Definition encode_string (s : string) : string := dq +:+ escape s +:+ dq.

Fixpoint spaces (n : nat) : string :=
  match n with
  | 0 => EmptyString
  | S n' => " " +:+ spaces n'
  end.

Fixpoint join (sep : string) (l : list string) : string :=
  match l with
  | [] => EmptyString
  | [x] => x
  | x :: l' => x +:+ sep +:+ join sep l'
  end.

(** The pretty printer of [json.dumps] with [indent] set: an empty
    container is printed closed, any other one puts each item on a line
    of its own, one level deeper, items separated by a comma. *)
Fixpoint dumps_at (indent level : nat) (j : value) : string :=
  let inner := nl +:+ spaces (indent * S level) in
  let outer := nl +:+ spaces (indent * level) in
  match j with
  | JString s => encode_string s
  | JArray [] => "[]"
  | JArray items =>
      "[" +:+ inner
          +:+ join ("," +:+ inner) (map (dumps_at indent (S level)) items)
          +:+ outer +:+ "]"
  | JObject [] => "{}"
  | JObject members =>
      "{" +:+ inner
          +:+ join ("," +:+ inner)
                (map (fun kv : string * value =>
                        let (k, v) := kv in
                        encode_string k +:+ ": " +:+ dumps_at indent (S level) v)
                     members)
          +:+ outer +:+ "}"
  end.

Definition dumps (j : value) (indent : nat) : string := dumps_at indent 0 j.

End Json.

(** The Python value [career_data] seen as a JSON document. *)
Definition entry_to_json (e : KnowledgeEntry) : Json.value :=
  Json.JObject
    [ ("careers", Json.JArray (map Json.JString (careers e)));
      ("skills", Json.JArray (map Json.JString (skills e)));
      ("resources", Json.JArray (map Json.JString (resources e))) ].

Definition career_data_to_json (d : list (string * KnowledgeEntry)) : Json.value :=
  Json.JObject (map (fun kv => (fst kv, entry_to_json (snd kv))) d).

(** ** Messages and the prompt template (BOT.py, lines 36-53) *)

Inductive BaseMessage :=
| SystemMessage (content : string)
| HumanMessage (content : string)
| AIMessage (content : string).

Definition message_content (m : BaseMessage) : string :=
  match m with
  | SystemMessage c | HumanMessage c | AIMessage c => c
  end.

(** Python exceptions, the instances of [Exception] that the handlers of
    the program catch: the class name and the text [str(e)] gives. *)
Inductive exn := Exception (class message : string).

Definition str (e : exn) : string :=
  match e with Exception _ m => m end.

Inductive result (A : Type) :=
| Ok (a : A)
| Raise (e : exn).
Arguments Ok {A} a.
Arguments Raise {A} e.

(** A format string is a sequence of literal pieces and replacement
    fields, as [string.Formatter.parse] reads it: [{name}] is a field,
    a doubled brace is one literal brace, a closing brace alone or a
    field left open is an error. *)
Inductive segment :=
| Lit (s : string)
| Field (name : string).

Definition cons_lit (c : ascii) (segs : list segment) : list segment :=
  match segs with
  | Lit s :: rest => Lit (String c s) :: rest
  | _ => Lit (String c EmptyString) :: segs
  end.

Definition lbrace : ascii := "{"%char.
Definition rbrace : ascii := "}"%char.

Fixpoint parse_format (field : option string) (s : string) : option (list segment) :=
  match field, s with
  | None, EmptyString => Some []
  | None, String c rest =>
      if Ascii.eqb c lbrace then
        match rest with
        | String c' rest' =>
            if Ascii.eqb c' lbrace then cons_lit lbrace <$> parse_format None rest'
            else parse_format (Some EmptyString) rest
        | EmptyString => None
        end
      else if Ascii.eqb c rbrace then
        match rest with
        | String c' rest' =>
            if Ascii.eqb c' rbrace then cons_lit rbrace <$> parse_format None rest'
            else None
        | EmptyString => None
        end
      else cons_lit c <$> parse_format None rest
  | Some _, EmptyString => None
  | Some name, String c rest =>
      if Ascii.eqb c rbrace then (Field name ::.) <$> parse_format None rest
      else parse_format (Some (name +:+ String c EmptyString)) rest
  end.

Inductive MessageTemplate :=
| SystemMessagePromptTemplate (tpl : list segment)
| HumanMessagePromptTemplate (tpl : list segment)
| AIMessagePromptTemplate (tpl : list segment)
| MessagesPlaceholder (variable_name : string).

(** What [ChatPromptTemplate.from_messages] accepts in the list. *)
Inductive MessageLike :=
| RoleAndTemplate (role template : string)
| Placeholder (variable_name : string).

Definition message_template (m : MessageLike) : result MessageTemplate :=
  match m with
  | Placeholder v => Ok (MessagesPlaceholder v)
  | RoleAndTemplate role template =>
      match parse_format None template with
      | None => Raise (Exception "ValueError" "Invalid format string")
      | Some segs =>
          if String.eqb role "system" then Ok (SystemMessagePromptTemplate segs)
          else if (String.eqb role "human" || String.eqb role "user")%bool
          then Ok (HumanMessagePromptTemplate segs)
          else if (String.eqb role "ai" || String.eqb role "assistant")%bool
          then Ok (AIMessagePromptTemplate segs)
          else Raise (Exception "ValueError" "Unexpected message type")
      end
  end.

Fixpoint from_messages (l : list MessageLike) : result (list MessageTemplate) :=
  match l with
  | [] => Ok []
  | m :: l' =>
      match message_template m with
      | Raise e => Raise e
      | Ok t =>
          match from_messages l' with
          | Raise e => Raise e
          | Ok ts => Ok (t :: ts)
          end
      end
  end.

(** The instruction text, in the two parts that surround the data. *)
Definition instruction_head : string :=
  "You are a career guidance chatbot designed for undergraduates. Your goal is to provide personalized, concise, and actionable career advice based on the user's academic major, interests, and skills. Use the following knowledge base for reference:".

Definition instruction_tail : string :=
  "Analyze the user's major and input to suggest relevant career paths, skills to develop, and learning resources. If the major is not in the knowledge base, reason about related fields and provide plausible suggestions. Keep responses friendly, professional, and under 200 words.".

(** The triple-quoted string of line 37; it is not a raw string, so the
    [\n] of line 45 is a line break. *)
Definition template : string :=
  nl +:+ instruction_head +:+ nl
  +:+ nl
  +:+ "{career_data}" +:+ nl
  +:+ nl
  +:+ "Conversation history:" +:+ nl
  +:+ "{chat_history}" +:+ nl
  +:+ nl
  +:+ "User input: Major: {major}" +:+ nl +:+ "Input: {user_input}" +:+ nl
  +:+ nl
  +:+ instruction_tail +:+ nl.

Definition human_template : string :=
  "Major: {major}" +:+ nl +:+ "Input: {user_input}".

Definition get_prompt_template : result (list MessageTemplate) :=
  from_messages
    [ RoleAndTemplate "system" template;
      Placeholder "chat_history";
      RoleAndTemplate "human" human_template ].

(** Values of the dictionary given to [invoke]. *)
Inductive InputValue :=
| VStr (s : string)
| VMessages (l : list BaseMessage).

(** ** The world the script runs in *)

(** An entry of the visible transcript: [{"role": ..., "content": ...}]. *)
Record Turn := { role : string; content : string }.

(** What [st.session_state] holds under a key: the list main stores under
    "messages", or a [ChatMessageHistory] made by [get_session_history]. *)
Inductive SessionValue :=
| TurnList (turns : list Turn)
| ChatMessageHistory (messages : list BaseMessage).

Inductive Event :=
| st_title (body : string)
| st_write (body : string)
| st_error (body : string)
| st_text_input (label : string) (password : bool)
| st_chat_message (name body : string)
| llm_request (api_key : string) (prompt : list BaseMessage).

(** A file on disk is read through python-dotenv only, so its content is
    kept as the bindings it declares, in the order of its lines. *)
Record World := {
  files : gmap string (list (string * string));
  environ : gmap string string;
  session_state : gmap string SessionValue;
  log : list Event
}.

Definition set_environ (e : gmap string string) (w : World) : World :=
  {| files := files w; environ := e; session_state := session_state w; log := log w |}.

Definition set_session_state (s : gmap string SessionValue) (w : World) : World :=
  {| files := files w; environ := environ w; session_state := s; log := log w |}.

Definition emit (ev : Event) (w : World) : World :=
  {| files := files w; environ := environ w; session_state := session_state w;
     log := log w ++ [ev] |}.

(** ** Computations: state, and exceptions that keep the state *)

Definition M (A : Type) : Type := World -> result A * World.

Definition ret {A} (a : A) : M A := fun w => (Ok a, w).

Definition bind {A B} (m : M A) (k : A -> M B) : M B :=
  fun w =>
    match m w with
    | (Ok a, w') => k a w'
    | (Raise e, w') => (Raise e, w')
    end.

Definition raise {A} (e : exn) : M A := fun w => (Raise e, w).

(** [try: body  except Exception as e: handler e] *)
Definition try_except {A} (body : M A) (handler : exn -> M A) : M A :=
  fun w =>
    match body w with
    | (Ok a, w') => (Ok a, w')
    | (Raise e, w') => handler e w'
    end.

Definition lift {A} (r : result A) : M A := fun w => (r, w).

Definition tell (ev : Event) : M unit := fun w => (Ok tt, emit ev w).

Declare Scope py_scope.
Delimit Scope py_scope with py.
Notation "x <~ m ; k" := (bind m (fun x => k))
  (at level 100, m at next level, right associativity) : py_scope.
Notation "m ;; k" := (bind m (fun _ => k))
  (at level 100, right associativity) : py_scope.
Local Open Scope py_scope.

(** Truth value of a Python string, and of [None] or a string. *)
Definition truthy (s : string) : bool := negb (String.eqb s "").

Definition truthy_opt (o : option string) : bool :=
  match o with
  | None => false
  | Some s => truthy s
  end.

(** ** Module level: [load_dotenv()] (BOT.py, lines 9-12) *)

(** python-dotenv: the bindings of the file named ".env" are collected in
    a dictionary (a later line wins over an earlier one with the same
    name), and each is put in [os.environ] unless the name is already set
    there.  A missing file is not an error. *)
Definition dotenv_values (lines : list (string * string)) : gmap string string :=
  list_to_map (reverse lines).

Definition load_dotenv : M bool :=
  fun w =>
    match files w !! ".env" with
    | None => (Ok false, w)
    | Some lines =>
        (Ok (negb (bool_decide (lines = []))),
         set_environ (environ w ∪ dotenv_values lines) w)
    end.

Definition os_getenv (name : string) : M (option string) :=
  fun w => (Ok (environ w !! name), w).

(** ** History store (BOT.py, lines 68-71) *)

Definition get_session_history (session_id : string) : M SessionValue :=
  fun w =>
    match session_state w !! session_id with
    | None =>
        let h := ChatMessageHistory [] in
        (Ok h, set_session_state (<[session_id := h]> (session_state w)) w)
    | Some v => (Ok v, w)
    end.

(** The two operations LangChain performs on the object the factory
    returned.  The object is the one stored in [st.session_state] under
    the session id, so a mutation of it is an update at that key.  A
    Python list has neither attribute. *)
Definition history_messages (h : SessionValue) : result (list BaseMessage) :=
  match h with
  | ChatMessageHistory l => Ok l
  | TurnList _ =>
      Raise (Exception "AttributeError" "'list' object has no attribute 'messages'")
  end.

Definition add_messages (session_id : string) (new : list BaseMessage) : M unit :=
  fun w =>
    match session_state w !! session_id with
    | Some (ChatMessageHistory l) =>
        (Ok tt,
         set_session_state
           (<[session_id := ChatMessageHistory (l ++ new)]> (session_state w)) w)
    | Some (TurnList _) =>
        (Raise (Exception "AttributeError"
                  "'list' object has no attribute 'add_messages'"), w)
    | None => (Raise (Exception "KeyError" session_id), w)
    end.

(** Appending one turn under a session id, the way the history wrapper
    does it: ask the factory for the history, then add to it. *)
Definition append_turn (session_id : string) (m : BaseMessage) : M unit :=
  _ <~ get_session_history session_id;
  add_messages session_id [m].

Fixpoint append_turns (session_id : string) (ms : list BaseMessage) : M unit :=
  match ms with
  | [] => ret tt
  | m :: ms' => append_turn session_id m;; append_turns session_id ms'
  end.

(** The turns observed under a session id. *)
Definition history_of (session_id : string) (w : World) : list BaseMessage :=
  match session_state w !! session_id with
  | Some (ChatMessageHistory l) => l
  | _ => []
  end.

(** The visible transcript, [st.session_state.messages]. *)
Definition transcript (w : World) : list Turn :=
  match session_state w !! "messages" with
  | Some (TurnList l) => l
  | _ => []
  end.

Record Widgets := {
  api_key_field : string;
  major_field : string;
  question_field : string
}.

Record ChatModel := { model : string; google_api_key : string }.

Record RunnableSequence := {
  first_step : list MessageTemplate;
  last_step : ChatModel
}.

Record RunnableWithMessageHistory := {
  runnable : RunnableSequence;
  session_history_factory : string -> M SessionValue;
  input_messages_key : string;
  history_messages_key : string
}.

Section Program.

(** What lies outside the repository: the text Python prints for a list
    of messages, the constructor of the model client (it may refuse its
    arguments), and the hosted model, whose answer to a request may
    depend on everything that happened before. *)
Variable repr_messages : list BaseMessage -> string.
Variable ChatGoogleGenerativeAI : string -> string -> result ChatModel.
Variable gemini : list Event -> ChatModel -> list BaseMessage -> result string.

(** *** Formatting the prompt *)

Definition format_field (inputs : gmap string InputValue) (name : string)
  : result string :=
  match inputs !! name with
  | None => Raise (Exception "KeyError" name)
  | Some (VStr s) => Ok s
  | Some (VMessages l) => Ok (repr_messages l)
  end.

Fixpoint format_segments (inputs : gmap string InputValue) (segs : list segment)
  : result string :=
  match segs with
  | [] => Ok EmptyString
  | Lit s :: segs' =>
      match format_segments inputs segs' with
      | Ok r => Ok (s +:+ r)
      | Raise e => Raise e
      end
  | Field name :: segs' =>
      match format_field inputs name with
      | Raise e => Raise e
      | Ok v =>
          match format_segments inputs segs' with
          | Ok r => Ok (v +:+ r)
          | Raise e => Raise e
          end
      end
  end.

Definition format_one (inputs : gmap string InputValue) (t : MessageTemplate)
  : result (list BaseMessage) :=
  match t with
  | SystemMessagePromptTemplate segs =>
      match format_segments inputs segs with
      | Ok s => Ok [SystemMessage s] | Raise e => Raise e
      end
  | HumanMessagePromptTemplate segs =>
      match format_segments inputs segs with
      | Ok s => Ok [HumanMessage s] | Raise e => Raise e
      end
  | AIMessagePromptTemplate segs =>
      match format_segments inputs segs with
      | Ok s => Ok [AIMessage s] | Raise e => Raise e
      end
  | MessagesPlaceholder name =>
      match inputs !! name with
      | Some (VMessages l) => Ok l
      | Some (VStr _) =>
          Raise (Exception "ValueError" "variable should be a list of base messages")
      | None => Raise (Exception "KeyError" name)
      end
  end.

Fixpoint format_messages (inputs : gmap string InputValue)
    (ts : list MessageTemplate) : result (list BaseMessage) :=
  match ts with
  | [] => Ok []
  | t :: ts' =>
      match format_one inputs t with
      | Raise e => Raise e
      | Ok ms =>
          match format_messages inputs ts' with
          | Raise e => Raise e
          | Ok rest => Ok (ms ++ rest)
          end
      end
  end.

(** *** The model call *)

Definition llm_invoke (llm : ChatModel) (prompt : list BaseMessage) : M BaseMessage :=
  fun w =>
    (match gemini (log w) llm prompt with
     | Ok text => Ok (AIMessage text)
     | Raise e => Raise e
     end,
     emit (llm_request (google_api_key llm) prompt) w).

(** [prompt | llm] *)
Definition sequence_invoke (r : RunnableSequence) (inputs : gmap string InputValue)
  : M BaseMessage :=
  prompt <~ lift (format_messages inputs (first_step r));
  llm_invoke (last_step r) prompt.

(** [RunnableWithMessageHistory.invoke]: the past turns of the session
    are put in the inputs under [history_messages_key], the wrapped
    runnable is run, and only when it returned are the new human message
    (the value under [input_messages_key]) and the reply added to the
    history. *)
Definition input_message (inputs : gmap string InputValue) (key : string)
  : result BaseMessage :=
  match inputs !! key with
  | Some (VStr s) => Ok (HumanMessage s)
  | Some (VMessages _) =>
      Raise (Exception "ValueError" "expected a single input message")
  | None => Raise (Exception "KeyError" key)
  end.

Definition history_invoke (r : RunnableWithMessageHistory)
    (inputs : gmap string InputValue) (session_id : string) : M BaseMessage :=
  hist <~ session_history_factory r session_id;
  past <~ lift (history_messages hist);
  reply <~ sequence_invoke (runnable r) (<[history_messages_key r := VMessages past]> inputs);
  question <~ lift (input_message inputs (input_messages_key r));
  add_messages session_id [question; reply];;
  ret reply.

(** *** [chatbot_response] (BOT.py, lines 56-65) *)

(** The dictionary of line 62, with the string line 58 computes. *)
Definition chatbot_inputs (user_input major : string)
    (career_data : list (string * KnowledgeEntry)) : gmap string InputValue :=
  let career_data_str := Json.dumps (career_data_to_json career_data) 2 in
  <["career_data" := VStr career_data_str]>
    (<["major" := VStr major]>
       (<["user_input" := VStr user_input]> ∅)).

(** [session_id=None] is the call that leaves the parameter out, and
    gets its default. *)
Definition chatbot_response (user_input major : string)
    (runnable : RunnableWithMessageHistory)
    (career_data : list (string * KnowledgeEntry))
    (session_id : option string) : M string :=
  let session_id := default "default" session_id in
  response <~ history_invoke runnable
                (chatbot_inputs user_input major career_data) session_id;
  ret (message_content response).

(** *** [main] (BOT.py, lines 74-133) *)

Definition text_input (label : string) (password : bool) (value : string) : M string :=
  tell (st_text_input label password);;
  ret value.

(** Lines 79-80. *)
Definition init_messages : M unit :=
  fun w =>
    match session_state w !! "messages" with
    | None => (Ok tt, set_session_state (<["messages" := TurnList []]> (session_state w)) w)
    | Some _ => (Ok tt, w)
    end.

(** Lines 116-118.  Iterating over a value that is not the list of
    turns does not give role/content dictionaries. *)
Definition session_messages : M (list Turn) :=
  fun w =>
    match session_state w !! "messages" with
    | Some (TurnList l) => (Ok l, w)
    | Some (ChatMessageHistory _) =>
        (Raise (Exception "TypeError" "tuple indices must be integers or slices, not str"), w)
    | None => (Raise (Exception "AttributeError" "st.session_state has no attribute messages"), w)
    end.

Fixpoint display (l : list Turn) : M unit :=
  match l with
  | [] => ret tt
  | message :: l' =>
      tell (st_chat_message (role message) (content message));;
      display l'
  end.

(** Line 124 and line 131: [st.session_state.messages.append(...)]. *)
Definition messages_append (t : Turn) : M unit :=
  fun w =>
    match session_state w !! "messages" with
    | Some (TurnList l) =>
        (Ok tt, set_session_state (<["messages" := TurnList (l ++ [t])]> (session_state w)) w)
    | Some (ChatMessageHistory _) =>
        (Raise (Exception "AttributeError" "'ChatMessageHistory' object has no attribute 'append'"), w)
    | None => (Raise (Exception "AttributeError" "st.session_state has no attribute messages"), w)
    end.

(** Lines 86-92: [None] stands for the early [return]. *)
Definition obtain_api_key (ui : Widgets) : M (option string) :=
  api_key <~ os_getenv "GOOGLE_API_KEY";
  if truthy_opt api_key then ret api_key
  else
    tell (st_error "Gemini API key not found in .env file. Please enter it below.");;
    api_key <~ text_input "Enter your Gemini API key:" true (api_key_field ui);
    if truthy api_key then ret (Some api_key)
    else
      tell (st_error "Gemini API key is required to proceed.");;
      ret None.

(** Lines 95-107: [None] stands for the [return] of the handler. *)
Definition initialize (api_key : string) : M (option RunnableWithMessageHistory) :=
  try_except
    (llm <~ lift (ChatGoogleGenerativeAI "gemini-1.5-flash" api_key);
     prompt <~ lift get_prompt_template;
     let runnable := {| first_step := prompt; last_step := llm |} in
     ret (Some {| runnable := runnable;
                  session_history_factory := get_session_history;
                  input_messages_key := "user_input";
                  history_messages_key := "chat_history" |}))
    (fun e =>
       tell (st_error ("Failed to initialize Gemini model: " +:+ str e));;
       ret None).

(** Lines 121-133. *)
Definition handle_input (user_input major : string)
    (runnable_with_history : RunnableWithMessageHistory)
    (career_data : list (string * KnowledgeEntry)) : M unit :=
  if (truthy user_input && truthy major)%bool then
    tell (st_chat_message "user" user_input);;
    messages_append {| role := "user"; content := user_input |};;
    try_except
      (response <~ chatbot_response user_input major runnable_with_history
                     career_data None;
       tell (st_chat_message "assistant" response);;
       messages_append {| role := "assistant"; content := response |})
      (fun e => tell (st_error ("Error generating response: " +:+ str e)))
  else ret tt.

Definition main (ui : Widgets) : M unit :=
  tell (st_title "AI Career Guidance Chatbot for Undergraduates");;
  tell (st_write "Enter your academic major and ask for career advice!");;
  init_messages;;
  let career_data := load_career_data in
  api_key <~ obtain_api_key ui;
  match api_key with
  | None => ret tt
  | Some api_key =>
      runnable_with_history <~ initialize api_key;
      match runnable_with_history with
      | None => ret tt
      | Some runnable_with_history =>
          major <~ text_input
            "Enter your academic major (e.g., Computer Science, Business, Biology):"
            false (major_field ui);
          user_input <~ text_input "Ask a career-related question:" false
            (question_field ui);
          messages <~ session_messages;
          display messages;;
          handle_input user_input major runnable_with_history career_data
      end
  end.

(** One run of the script: the module level, then [main()]. *)
Definition script (ui : Widgets) : M unit :=
  load_dotenv;;
  main ui.

End Program.

(** ** Test doubles for what lies outside the repository *)

Module Stub.

Definition repr_messages (l : list BaseMessage) : string :=
  "[" +:+ Json.join ", " (map message_content l) +:+ "]".

Definition client (model api_key : string) : result ChatModel :=
  Ok {| model := model; google_api_key := api_key |}.

Definition client_refuses (model api_key : string) : result ChatModel :=
  Raise (Exception "ValidationError" "invalid API key").

Definition replies (text : string)
    (_ : list Event) (_ : ChatModel) (_ : list BaseMessage) : result string :=
  Ok text.

Definition unavailable
    (_ : list Event) (_ : ChatModel) (_ : list BaseMessage) : result string :=
  Raise (Exception "ConnectionError" "service unavailable").

Definition empty_world : World :=
  {| files := ∅; environ := ∅; session_state := ∅; log := [] |}.

Definition world_with_key : World :=
  {| files := ∅; environ := {[ "GOOGLE_API_KEY" := "k" ]};
     session_state := ∅; log := [] |}.

Definition world_with_dotenv : World :=
  {| files := {[ ".env" := [("GOOGLE_API_KEY", "k")] ]}; environ := ∅;
     session_state := ∅; log := [] |}.

Definition ask (major question : string) : Widgets :=
  {| api_key_field := ""; major_field := major; question_field := question |}.

End Stub.

(** ** Vocabulary of the properties *)

(** The value [get_prompt_template] evaluates to: the three message
    templates, each format string cut into its literal pieces and its
    replacement fields. *)
Definition prompt_template : list MessageTemplate :=
  [ SystemMessagePromptTemplate
      [ Lit (nl +:+ instruction_head +:+ nl +:+ nl);
        Field "career_data";
        Lit (nl +:+ nl +:+ "Conversation history:" +:+ nl);
        Field "chat_history";
        Lit (nl +:+ nl +:+ "User input: Major: ");
        Field "major";
        Lit (nl +:+ "Input: ");
        Field "user_input";
        Lit (nl +:+ nl +:+ instruction_tail +:+ nl) ];
    MessagesPlaceholder "chat_history";
    HumanMessagePromptTemplate
      [ Lit "Major: "; Field "major"; Lit (nl +:+ "Input: "); Field "user_input" ] ].

(** The text of the system message for given data, past turns, major and
    question. *)
Definition system_text (repr_messages : list BaseMessage -> string)
    (career_data : list (string * KnowledgeEntry)) (past : list BaseMessage)
    (major user_input : string) : string :=
  (nl +:+ instruction_head +:+ nl +:+ nl)
  +:+ Json.dumps (career_data_to_json career_data) 2
  +:+ (nl +:+ nl +:+ "Conversation history:" +:+ nl)
  +:+ repr_messages past
  +:+ (nl +:+ nl +:+ "User input: Major: ")
  +:+ major
  +:+ (nl +:+ "Input: ")
  +:+ user_input
  +:+ (nl +:+ nl +:+ instruction_tail +:+ nl).

Definition human_text (major user_input : string) : string :=
  "Major: " +:+ major +:+ (nl +:+ "Input: ") +:+ user_input.

Definition assembled_prompt (repr_messages : list BaseMessage -> string)
    (career_data : list (string * KnowledgeEntry)) (past : list BaseMessage)
    (major user_input : string) : list BaseMessage :=
  SystemMessage (system_text repr_messages career_data past major user_input)
    :: past ++ [HumanMessage (human_text major user_input)].

Definition main_runnable (llm : ChatModel) : RunnableWithMessageHistory :=
  {| runnable := {| first_step := prompt_template; last_step := llm |};
     session_history_factory := get_session_history;
     input_messages_key := "user_input";
     history_messages_key := "chat_history" |}.

Definition keeps (R : World -> World -> Prop) {A} (m : M A) : Prop :=
  forall w, R w (m w).2.

Definition outside (K : string -> Prop) (w w' : World) : Prop :=
  forall k, ~ K k -> session_state w' !! k = session_state w !! k.

(** The two keys [main] works with. *)
Definition program_key (k : string) : Prop := k = "messages" \/ k = "default".

(** The value under a session id is usable as a history: it is absent,
    or it is a [ChatMessageHistory]. *)
Definition history_ok (sid : string) (w : World) : Prop :=
  match session_state w !! sid with
  | Some (TurnList _) => False
  | _ => True
  end.

Definition infix (needle hay : string) : Prop :=
  exists pre post, hay = pre +:+ needle +:+ post.

Fixpoint strip_prefix (p s : string) : option string :=
  match p, s with
  | EmptyString, _ => Some s
  | String a p', String b s' => if Ascii.eqb a b then strip_prefix p' s' else None
  | String _ _, EmptyString => None
  end.

Fixpoint find (needle hay : string) : option (string * string) :=
  match strip_prefix needle hay with
  | Some post => Some (EmptyString, post)
  | None =>
      match hay with
      | EmptyString => None
      | String c hay' =>
          match find needle hay' with
          | Some (pre, post) => Some (String c pre, post)
          | None => None
          end
      end
  end.

(** The text of the careers list and of the skills list of "Computer
    Science" in the prompt, character by character: every string between
    quotes, one item a line, six spaces in. *)
Definition careers_text : string :=
  dq +:+ "careers" +:+ dq +:+ ": [" +:+ nl
  +:+ "      " +:+ dq +:+ "Software Engineer" +:+ dq +:+ "," +:+ nl
  +:+ "      " +:+ dq +:+ "Data Scientist" +:+ dq +:+ "," +:+ nl
  +:+ "      " +:+ dq +:+ "Cybersecurity Analyst" +:+ dq +:+ nl
  +:+ "    ]".

Definition skills_text : string :=
  dq +:+ "skills" +:+ dq +:+ ": [" +:+ nl
  +:+ "      " +:+ dq +:+ "Python" +:+ dq +:+ "," +:+ nl
  +:+ "      " +:+ dq +:+ "Java" +:+ dq +:+ "," +:+ nl
  +:+ "      " +:+ dq +:+ "Data Analysis" +:+ dq +:+ "," +:+ nl
  +:+ "      " +:+ dq +:+ "Cybersecurity" +:+ dq +:+ nl
  +:+ "    ]".

(** Both, under the name of the major, as they follow each other. *)
Definition computer_science_text : string :=
  dq +:+ "Computer Science" +:+ dq +:+ ": {" +:+ nl
  +:+ "    " +:+ careers_text +:+ "," +:+ nl
  +:+ "    " +:+ skills_text +:+ ",".

(** The histories under the ids other than [sid] are left as they were. *)
Definition same_histories_except (sid : string) (w w' : World) : Prop :=
  forall k, k <> sid -> history_of k w' = history_of k w.

(** The requests made to the hosted model, among logged events. *)
Definition requests (evs : list Event) : list (list BaseMessage) :=
  flat_map (fun ev => match ev with llm_request _ p => [p] | _ => [] end) evs.

(** The credential lines 86-92 end up with, if any. *)
Definition credential (ui : Widgets) (w : World) : option string :=
  if truthy_opt (environ w !! "GOOGLE_API_KEY") then environ w !! "GOOGLE_API_KEY"
  else if truthy (api_key_field ui) then Some (api_key_field ui)
  else None.

(** The state the program itself produces: the transcript key is absent
    or holds the list of turns, the key "default" is absent or holds a
    history. *)
Definition wf (w : World) : Prop :=
  match session_state w !! "messages" with
  | Some (ChatMessageHistory _) => False
  | _ => True
  end
  /\ history_ok "default" w.

Definition is_assistant (t : Turn) : bool := String.eqb (role t) "assistant".

Definition user_turn (user_input : string) : Turn :=
  {| role := "user"; content := user_input |}.

Definition assistant_turn (response : string) : Turn :=
  {| role := "assistant"; content := response |}.

(** The world in which line 128 calls [chatbot_response]: the question
    has been shown and appended to the transcript. *)
Definition after_user_turn (user_input : string) (w : World) : World :=
  (messages_append (user_turn user_input)
     (emit (st_chat_message "user" user_input) w)).2.

(** The world when lines 86-92 are done. *)
Definition keyed (ui : Widgets) (w : World) : World :=
  (obtain_api_key ui
     (init_messages
        (emit (st_write "Enter your academic major and ask for career advice!")
           (emit (st_title "AI Career Guidance Chatbot for Undergraduates") w))).2).2.

(** The world in which line 121 is reached: the widgets have been drawn
    and the transcript displayed. *)
Definition ready (ui : Widgets) (w : World) : World :=
  let wC :=
    emit (st_text_input "Ask a career-related question:" false)
      (emit (st_text_input
               "Enter your academic major (e.g., Computer Science, Business, Biology):"
               false) (keyed ui w)) in
  (display (transcript wC) wC).2.

Definition set_files (f : gmap string (list (string * string))) (w : World) : World :=
  {| files := f; environ := environ w; session_state := session_state w; log := log w |}.

(** A computation that does not look at the files: with other files it
    does the same, and leaves those files as they are. *)
Definition blind {A} (m : M A) : Prop :=
  forall f w, m (set_files f w) = ((m w).1, set_files f (m w).2).

(** What a new process starts from: the disk as it is, the environment
    it is given, and nothing in memory. *)
Definition restart (env : gmap string string) (w : World) : World :=
  {| files := files w; environ := env; session_state := ∅; log := [] |}.

(** ** Runs one after the other *)

(** Streamlit runs the script again at every interaction, in the same
    process: the environment and [st.session_state] are those the run
    before left, whatever way that run ended. *)
Definition run_all (repr_messages : list BaseMessage -> string)
    (CG : string -> string -> result ChatModel)
    (gemini : list Event -> ChatModel -> list BaseMessage -> result string)
    (uis : list Widgets) (w : World) : World :=
  fold_left (fun w ui => (script repr_messages CG gemini ui w).2) uis w.

(** A process that has just started. *)
Definition fresh (f : gmap string (list (string * string)))
    (env : gmap string string) : World :=
  {| files := f; environ := env; session_state := ∅; log := [] |}.

(** The chat messages among logged events, as turns. *)
Definition shown (evs : list Event) : list Turn :=
  flat_map (fun ev =>
              match ev with
              | st_chat_message name body => [{| role := name; content := body |}]
              | _ => []
              end) evs.

(** The exchanges of a transcript that got their answer: a user turn
    followed at once by an assistant turn.  [pending] is the question of
    the user turn just read, if the turn just read is one. *)
Fixpoint answered (pending : option string) (l : list Turn) : list BaseMessage :=
  match l with
  | [] => []
  | t :: l' =>
      if String.eqb (role t) "user" then answered (Some (content t)) l'
      else if String.eqb (role t) "assistant" then
        match pending with
        | Some question =>
            HumanMessage question :: AIMessage (content t) :: answered None l'
        | None => answered None l'
        end
      else answered None l'
  end.

(** The model's memory and the visible transcript tell the same story. *)
Definition in_step (w : World) : Prop :=
  wf w /\ history_of "default" w = answered None (transcript w).

(** A stored value that has only been appended to. *)
Definition extends (v v' : SessionValue) : Prop :=
  match v, v' with
  | TurnList l, TurnList l' => l `prefix_of` l'
  | ChatMessageHistory l, ChatMessageHistory l' => l `prefix_of` l'
  | _, _ => False
  end.

(** Nothing stored or logged has been removed or rewritten. *)
Definition grows (w w' : World) : Prop :=
  (forall k v, session_state w !! k = Some v ->
               exists v', session_state w' !! k = Some v' /\ extends v v')
  /\ log w `prefix_of` log w'.

(** The credential the program ends up with, by where a key is found:
    the environment, then the file .env, then the key field. *)
Definition from_field (ui : Widgets) : option string :=
  if truthy (api_key_field ui) then Some (api_key_field ui) else None.

Definition found_credential (ui : Widgets) (w : World) : option string :=
  match environ w !! "GOOGLE_API_KEY" with
  | Some k => if truthy k then Some k else from_field ui
  | None =>
      match files w !! ".env" with
      | Some lines =>
          match dotenv_values lines !! "GOOGLE_API_KEY" with
          | Some k => if truthy k then Some k else from_field ui
          | None => from_field ui
          end
      | None => from_field ui
      end
  end.

(** ** Reading escaped text back *)

Fixpoint string_forall (P : ascii -> bool) (s : string) : bool :=
  match s with
  | EmptyString => true
  | String c s' => (P c && string_forall P s')%bool
  end.

(** From the space to the tilde. *)
Definition printable (c : ascii) : bool :=
  (Nat.leb 32 (nat_of_ascii c) && Nat.leb (nat_of_ascii c) 126)%bool.

Definition hex_value (c : ascii) : option nat :=
  let n := nat_of_ascii c in
  if (Nat.leb 48 n && Nat.leb n 57)%bool then Some (n - 48)
  else if (Nat.leb 97 n && Nat.leb n 102)%bool then Some (n - 87)
  else None.

Definition backslash : ascii := ascii_of_nat 92.

(** The reading of the escapes [Json.escape] writes: after a backslash,
    a letter for a control character, [u00XY] for a code point, and any
    other character for itself. *)
Fixpoint unescape (s : string) : string :=
  match s with
  | EmptyString => EmptyString
  | String c rest =>
      if Ascii.eqb c backslash then
        match rest with
        | EmptyString => String c EmptyString
        | String d rest' =>
            if Ascii.eqb d "n" then String (ascii_of_nat 10) (unescape rest')
            else if Ascii.eqb d "r" then String (ascii_of_nat 13) (unescape rest')
            else if Ascii.eqb d "t" then String (ascii_of_nat 9) (unescape rest')
            else if Ascii.eqb d "b" then String (ascii_of_nat 8) (unescape rest')
            else if Ascii.eqb d "f" then String (ascii_of_nat 12) (unescape rest')
            else if Ascii.eqb d "u" then
              match rest' with
              | String _ (String _ (String h1 (String h2 rest''))) =>
                  match hex_value h1, hex_value h2 with
                  | Some a, Some b =>
                      String (ascii_of_nat (16 * a + b)) (unescape rest'')
                  | _, _ => String d (unescape rest')
                  end
              | _ => String d (unescape rest')
              end
            else String d (unescape rest')
        end
      else String c (unescape rest)
  end.

(** * Properties *)

(** ** Knowledge table *)

Lemma dict_get_In {V : Type} (k : string) (d : list (string * V)) (v : V) :
  dict_get k d = Some v -> In (k, v) d.
Proof.
  induction d as [|[k' v'] d IH]; simpl; [discriminate|].
  destruct (String.eqb k k') eqn:E.
  - intros [= ->]. apply String.eqb_eq in E. subst. now left.
  - intros H. right. now apply IH.
Qed.

(** C3: [load_career_data] is a constant: it has no argument and no
    failing path, its keys are the three majors, each once, and under
    every key of the table the careers, skills and resources lists are
    all non-empty. *)
Theorem load_career_data_entries_nonempty (major : string) (e : KnowledgeEntry) :
  dict_get major load_career_data = Some e ->
  dict_keys load_career_data = ["Computer Science"; "Business"; "Biology"]
  /\ NoDup (dict_keys load_career_data)
  /\ In major (dict_keys load_career_data)
  /\ careers e <> [] /\ skills e <> [] /\ resources e <> [].
Proof.
  intros H.
  split; [reflexivity|].
  split; [apply (NoDup_ListNoDup (dict_keys load_career_data)); vm_compute;
          repeat constructor; simpl; intuition discriminate|].
  split.
  { apply dict_get_In in H. apply (in_map fst) in H. exact H. }
  apply dict_get_In in H. simpl in H.
  destruct H as [H|[H|[H|[]]]]; injection H as _ <-; simpl;
    repeat split; discriminate.
Qed.

Lemma load_career_data_entries_nonempty_witness :
  dict_get "Biology" load_career_data
  = Some {| careers := ["Biomedical Researcher"; "Environmental Scientist"; "Pharmacist"];
            skills := ["Research"; "Lab Techniques"; "Data Analysis"];
            resources := ["PubMed"; "Khan Academy"; "Nature Journal"] |}
  /\ resources {| careers := ["Biomedical Researcher"; "Environmental Scientist"; "Pharmacist"];
            skills := ["Research"; "Lab Techniques"; "Data Analysis"];
            resources := ["PubMed"; "Khan Academy"; "Nature Journal"] |} <> [].
Proof.
  split; [reflexivity|].
  apply (load_career_data_entries_nonempty "Biology"). reflexivity.
Defined.

(** ** Prompt assembler *)

Lemma get_prompt_template_ok : get_prompt_template = Ok prompt_template.
Proof. vm_compute. reflexivity. Qed.

Lemma append_nil_r (s : string) : s +:+ "" = s.
Proof.
  induction s as [|c s IH]; [reflexivity|].
  change (String c (s +:+ "") = String c s). now rewrite IH.
Qed.

Lemma append_assoc (a b c : string) : (a +:+ b) +:+ c = a +:+ (b +:+ c).
Proof.
  induction a as [|x a IH]; [reflexivity|].
  change (String x ((a +:+ b) +:+ c) = String x (a +:+ (b +:+ c))). now rewrite IH.
Qed.

Lemma chatbot_inputs_lookup user_input major career_data past :
  let d := <["chat_history" := VMessages past]>
             (chatbot_inputs user_input major career_data) in
  d !! "career_data" = Some (VStr (Json.dumps (career_data_to_json career_data) 2))
  /\ d !! "chat_history" = Some (VMessages past)
  /\ d !! "major" = Some (VStr major)
  /\ d !! "user_input" = Some (VStr user_input).
Proof.
  unfold chatbot_inputs. generalize (Json.dumps (career_data_to_json career_data) 2).
  intros J. cbv zeta.
  repeat split;
    repeat (first [ rewrite lookup_insert_eq; reflexivity
                  | rewrite lookup_insert_ne by (intros ?; discriminate) ]).
Qed.

Lemma format_prompt_template repr_messages career_data past major user_input :
  format_messages repr_messages
    (<["chat_history" := VMessages past]> (chatbot_inputs user_input major career_data))
    prompt_template
  = Ok (assembled_prompt repr_messages career_data past major user_input).
Proof.
  destruct (chatbot_inputs_lookup user_input major career_data past)
    as (Hd & Hh & Hm & Hu).
  cbv zeta in Hd, Hh, Hm, Hu.
  set (d := <["chat_history" := VMessages past]> _) in *. clearbody d.
  unfold prompt_template, assembled_prompt, system_text, human_text.
  cbn [format_messages format_one format_segments]. unfold format_field.
  rewrite Hd, Hh, Hm, Hu. rewrite !append_nil_r, app_nil_r. reflexivity.
Qed.

(** ** Running computations *)

Lemma bind_ok {A B} (m : M A) (k : A -> M B) w a w' :
  m w = (Ok a, w') -> bind m k w = k a w'.
Proof. unfold bind. now intros ->. Qed.

Lemma bind_raise {A B} (m : M A) (k : A -> M B) w e w' :
  m w = (Raise e, w') -> bind m k w = (Raise e, w').
Proof. unfold bind. now intros ->. Qed.

Lemma try_ok {A} (m : M A) h w a w' :
  m w = (Ok a, w') -> try_except m h w = (Ok a, w').
Proof. unfold try_except. now intros ->. Qed.

Lemma try_raise {A} (m : M A) h w e w' :
  m w = (Raise e, w') -> try_except m h w = h e w'.
Proof. unfold try_except. now intros ->. Qed.

(** ** The runnable [main] builds *)

Lemma initialize_cases CG api_key w :
  match CG "gemini-1.5-flash" api_key with
  | Ok llm => initialize CG api_key w = (Ok (Some (main_runnable llm)), w)
  | Raise e =>
      initialize CG api_key w
      = (Ok None, emit (st_error ("Failed to initialize Gemini model: " +:+ str e)) w)
  end.
Proof.
  unfold initialize, try_except, bind, lift.
  destruct (CG "gemini-1.5-flash" api_key) as [llm|e]; [|reflexivity].
  rewrite get_prompt_template_ok. reflexivity.
Qed.

Lemma initialize_factory CG api_key w r w' :
  initialize CG api_key w = (Ok (Some r), w') ->
  session_history_factory r = get_session_history.
Proof.
  pose proof (initialize_cases CG api_key w) as H.
  destruct (CG "gemini-1.5-flash" api_key); rewrite H; now intros [= <- _].
Qed.

(** ** Properties of computations that the program inherits *)

(** A property of computations that passes through sequencing and
    exception handling, and that the primitive steps have, holds of every
    block of the program and of [main]. *)
Section Closure.

Variable P : forall A : Type, M A -> Prop.

Hypothesis P_ret : forall A (a : A), P A (ret a).
Hypothesis P_lift : forall A (r : result A), P A (lift r).
Hypothesis P_bind :
  forall A B (m : M A) (k : A -> M B),
    P A m -> (forall a, (exists w w', m w = (Ok a, w')) -> P B (k a)) ->
    P B (bind m k).
Hypothesis P_try_except :
  forall A (m : M A) (h : exn -> M A),
    P A m -> (forall e, P A (h e)) -> P A (try_except m h).
Hypothesis P_tell : forall ev, P unit (tell ev).
Hypothesis P_os_getenv : forall name, P _ (os_getenv name).
Hypothesis P_session_messages : P _ session_messages.
Hypothesis P_llm_invoke : forall gemini llm prompt, P _ (llm_invoke gemini llm prompt).

Lemma closed_if {A} (b : bool) (m1 m2 : M A) :
  P A m1 -> P A m2 -> P A (if b then m1 else m2).
Proof. now destruct b. Qed.

Lemma closed_display l : P _ (display l).
Proof.
  induction l as [|t l IH]; simpl; [apply P_ret|].
  apply P_bind; [apply P_tell|intros _ _; exact IH].
Qed.

Lemma closed_text_input label password value :
  P _ (text_input label password value).
Proof.
  unfold text_input. apply P_bind; [apply P_tell|intros _ _; apply P_ret].
Qed.

Ltac leaf :=
  first [ apply P_tell | apply P_os_getenv | apply P_session_messages
        | apply closed_display | apply P_llm_invoke | apply closed_text_input
        | apply P_ret | apply P_lift ].

Ltac step :=
  lazymatch goal with
  | |- P _ (bind _ _) => apply P_bind; [|intros ? _]
  | |- P _ (try_except _ _) => apply P_try_except; [|intros ?]
  | |- P _ (if _ then _ else _) => apply closed_if
  | |- _ => leaf
  end.

Lemma closed_obtain_api_key ui : P _ (obtain_api_key ui).
Proof. unfold obtain_api_key. repeat step. Qed.

Lemma closed_initialize CG api_key : P _ (initialize CG api_key).
Proof. unfold initialize. repeat step. Qed.

(** *** The history of one session *)

Variable sid : string.
Hypothesis P_get : P _ (get_session_history sid).
Hypothesis P_add : forall new, P _ (add_messages sid new).

Lemma closed_history_invoke repr_messages gemini r inputs :
  session_history_factory r = get_session_history ->
  P _ (history_invoke repr_messages gemini r inputs sid).
Proof.
  intros Hf. unfold history_invoke, sequence_invoke. rewrite Hf.
  step; [exact P_get|]. repeat step. apply P_add.
Qed.

Lemma closed_chatbot_response repr_messages gemini user_input major r data o :
  session_history_factory r = get_session_history ->
  default "default" o = sid ->
  P _ (chatbot_response repr_messages gemini user_input major r data o).
Proof.
  intros Hf Ho. unfold chatbot_response. cbv zeta. rewrite Ho.
  step; [|leaf]. now apply closed_history_invoke.
Qed.

(** *** The transcript *)

Hypothesis P_init : P _ init_messages.
Hypothesis P_append : forall t, P _ (messages_append t).
Hypothesis sid_default : sid = "default".

Lemma closed_handle_input repr_messages gemini user_input major r data :
  session_history_factory r = get_session_history ->
  P _ (handle_input repr_messages gemini user_input major r data).
Proof.
  intros Hf. unfold handle_input.
  step; [|leaf]. step; [leaf|]. step; [apply P_append|].
  step; [|leaf]. step; [|step; [leaf|apply P_append]].
  apply closed_chatbot_response; [exact Hf|now rewrite sid_default].
Qed.

Lemma closed_main repr_messages CG gemini ui :
  P _ (main repr_messages CG gemini ui).
Proof.
  unfold main.
  step; [leaf|]. step; [leaf|]. step; [exact P_init|].
  cbv zeta. step; [apply closed_obtain_api_key|].
  destruct a2 as [api_key|]; [|leaf].
  apply P_bind; [apply closed_initialize|].
  intros [r|] (w & w' & Hr); [|apply P_ret].
  apply initialize_factory in Hr.
  step; [leaf|]. step; [leaf|]. step; [leaf|]. step; [leaf|].
  now apply closed_handle_input.
Qed.

End Closure.

(** ** Relations every step of a computation keeps *)

Section Keeps.

Variable R : World -> World -> Prop.
Hypothesis R_refl : forall w, R w w.
Hypothesis R_trans : forall a b c, R a b -> R b c -> R a c.
Hypothesis R_emit : forall w ev, R w (emit ev w).

Lemma keeps_ret {A} (a : A) : keeps R (ret a).
Proof. intros w. apply R_refl. Qed.

Lemma keeps_lift {A} (r : result A) : keeps R (lift r).
Proof. intros w. apply R_refl. Qed.

Lemma keeps_bind_strong {A B} (m : M A) (k : A -> M B) :
  keeps R m ->
  (forall a, (exists w w', m w = (Ok a, w')) -> keeps R (k a)) ->
  keeps R (bind m k).
Proof.
  intros Hm Hk w. unfold bind. specialize (Hm w).
  destruct (m w) as [[a|e] w'] eqn:E; simpl in *; [|exact Hm].
  eapply R_trans; [exact Hm|]. apply Hk. now exists w, w'.
Qed.

Lemma keeps_bind {A B} (m : M A) (k : A -> M B) :
  keeps R m -> (forall a, keeps R (k a)) -> keeps R (bind m k).
Proof. intros Hm Hk. apply keeps_bind_strong; auto. Qed.

Lemma keeps_try_except {A} (m : M A) (h : exn -> M A) :
  keeps R m -> (forall e, keeps R (h e)) -> keeps R (try_except m h).
Proof.
  intros Hm Hh w. unfold try_except. specialize (Hm w).
  destruct (m w) as [[a|e] w']; simpl in *; [exact Hm|].
  eapply R_trans; [exact Hm|apply Hh].
Qed.

Lemma keeps_session_messages : keeps R session_messages.
Proof.
  intros w. unfold session_messages.
  destruct (session_state w !! "messages") as [[l|l]|]; apply R_refl.
Qed.

Variable sid : string.
Hypothesis R_get : keeps R (get_session_history sid).
Hypothesis R_add : forall new, keeps R (add_messages sid new).

Lemma keeps_chatbot_response repr_messages gemini user_input major r data o :
  session_history_factory r = get_session_history ->
  default "default" o = sid ->
  keeps R (chatbot_response repr_messages gemini user_input major r data o).
Proof.
  apply (closed_chatbot_response (fun A m => keeps R m));
    auto using @keeps_ret, @keeps_lift, @keeps_bind_strong, @keeps_try_except,
      keeps_session_messages;
    intros; intros w; first [apply R_emit | apply R_refl].
Qed.

Hypothesis R_init : keeps R init_messages.
Hypothesis R_append : forall t, keeps R (messages_append t).
Hypothesis sid_default : sid = "default".

Lemma keeps_main repr_messages CG gemini ui :
  keeps R (main repr_messages CG gemini ui).
Proof.
  apply (closed_main (fun A m => keeps R m)) with (sid := sid);
    auto using @keeps_ret, @keeps_lift, @keeps_bind_strong, @keeps_try_except,
      keeps_session_messages;
    intros; intros w; first [apply R_emit | apply R_refl].
Qed.

End Keeps.

(** *** Keys of [st.session_state] left as they were *)

Lemma outside_refl K w : outside K w w.
Proof. now intros k _. Qed.

Lemma outside_trans K a b c : outside K a b -> outside K b c -> outside K a c.
Proof. intros H1 H2 k Hk. rewrite (H2 k Hk). now apply H1. Qed.

Lemma outside_emit K w ev : outside K w (emit ev w).
Proof. now intros k _. Qed.

Lemma get_session_history_outside (K : string -> Prop) s :
  K s -> keeps (outside K) (get_session_history s).
Proof.
  intros HK w k Hk. unfold get_session_history.
  destruct (session_state w !! s); simpl; [reflexivity|].
  rewrite lookup_insert_ne; [reflexivity|]. intros ->. now apply Hk.
Qed.

Lemma add_messages_outside (K : string -> Prop) s new :
  K s -> keeps (outside K) (add_messages s new).
Proof.
  intros HK w k Hk. unfold add_messages.
  destruct (session_state w !! s) as [[l|l]|]; simpl; try reflexivity.
  rewrite lookup_insert_ne; [reflexivity|]. intros ->. now apply Hk.
Qed.

Lemma init_messages_outside (K : string -> Prop) :
  K "messages" -> keeps (outside K) init_messages.
Proof.
  intros HK w k Hk. unfold init_messages.
  destruct (session_state w !! "messages"); simpl; [reflexivity|].
  rewrite lookup_insert_ne; [reflexivity|]. intros <-. now apply Hk.
Qed.

Lemma messages_append_outside (K : string -> Prop) t :
  K "messages" -> keeps (outside K) (messages_append t).
Proof.
  intros HK w k Hk. unfold messages_append.
  destruct (session_state w !! "messages") as [[l|l]|]; simpl; try reflexivity.
  rewrite lookup_insert_ne; [reflexivity|]. intros <-. now apply Hk.
Qed.

Lemma chatbot_response_outside repr_messages gemini user_input major r data o :
  session_history_factory r = get_session_history ->
  keeps (outside (eq (default "default" o)))
    (chatbot_response repr_messages gemini user_input major r data o).
Proof.
  intros Hf.
  apply (keeps_chatbot_response _ (outside_refl _) (outside_trans _)
           (outside_emit _) (default "default" o));
    auto using get_session_history_outside, add_messages_outside.
Qed.

Lemma main_outside repr_messages CG gemini ui :
  keeps (outside program_key) (main repr_messages CG gemini ui).
Proof.
  apply (keeps_main _ (outside_refl _) (outside_trans _) (outside_emit _) "default");
    intros; try reflexivity.
  - apply get_session_history_outside. now right.
  - apply add_messages_outside. now right.
  - apply init_messages_outside. now left.
  - apply messages_append_outside. now left.
Qed.

(** ** What one call of [chatbot_response] does *)

Lemma chatbot_inputs_user_input user_input major data :
  chatbot_inputs user_input major data !! "user_input" = Some (VStr user_input).
Proof.
  unfold chatbot_inputs. generalize (Json.dumps (career_data_to_json data) 2).
  intros J. cbv zeta.
  rewrite !lookup_insert_ne by (intros ?; discriminate).
  apply lookup_insert_eq.
Qed.

Lemma get_session_history_lookup sid w :
  history_ok sid w ->
  (get_session_history sid w).1 = Ok (ChatMessageHistory (history_of sid w))
  /\ session_state (get_session_history sid w).2 !! sid
     = Some (ChatMessageHistory (history_of sid w))
  /\ log (get_session_history sid w).2 = log w.
Proof.
  unfold history_ok, get_session_history, history_of.
  destruct (session_state w !! sid) as [[l|l]|] eqn:E; simpl; intros H;
    try contradiction; rewrite ?E, ?lookup_insert_eq; auto.
Qed.

Lemma chatbot_response_run repr_messages gemini user_input major llm data o w :
  let sid := default "default" o in
  let past := history_of sid w in
  let prompt := assembled_prompt repr_messages data past major user_input in
  let w1 := emit (llm_request (google_api_key llm) prompt)
              (get_session_history sid w).2 in
  history_ok sid w ->
  chatbot_response repr_messages gemini user_input major (main_runnable llm) data o w
  = match gemini (log w) llm prompt with
    | Ok text =>
        (Ok text,
         set_session_state
           (<[sid := ChatMessageHistory (past ++ [HumanMessage user_input; AIMessage text])]>
              (session_state w1)) w1)
    | Raise e => (Raise e, w1)
    end.
Proof.
  intros sid past prompt w1 Hok.
  destruct (get_session_history_lookup sid w Hok) as (Hr & Hs & Hl).
  subst w1. destruct (get_session_history sid w) as [r0 w0] eqn:Eg.
  simpl in Hr, Hs, Hl. subst r0.
  unfold chatbot_response. cbv zeta. fold sid.
  unfold history_invoke, sequence_invoke, bind, lift, ret.
  cbn [session_history_factory runnable first_step last_step input_messages_key
       history_messages_key main_runnable].
  rewrite Eg. cbn [history_messages].
  fold past. rewrite format_prompt_template. fold prompt.
  unfold llm_invoke. rewrite Hl.
  destruct (gemini (log w) llm prompt) as [text|e]; [|reflexivity].
  unfold input_message. rewrite chatbot_inputs_user_input.
  unfold add_messages. cbn [session_state emit snd]. rewrite Hs.
  reflexivity.
Qed.

(** ** Text inside a text *)

Lemma strip_prefix_sound p s post : strip_prefix p s = Some post -> s = p +:+ post.
Proof.
  revert s. induction p as [|a p IH]; intros [|b s]; simpl; try discriminate.
  - now intros [= <-].
  - now intros [= <-].
  - destruct (Ascii.eqb a b) eqn:E; [|discriminate].
    apply Ascii.eqb_eq in E. subst b. intros H. apply IH in H. subst s. reflexivity.
Qed.

Lemma find_sound needle hay pre post :
  find needle hay = Some (pre, post) -> hay = pre +:+ needle +:+ post.
Proof.
  revert pre. induction hay as [|c hay IH]; intros pre; simpl.
  - destruct (strip_prefix needle "") eqn:E; [|discriminate].
    intros [= <- <-]. now apply strip_prefix_sound in E.
  - destruct (strip_prefix needle (String c hay)) eqn:E.
    + intros [= <- <-]. now apply strip_prefix_sound in E.
    + destruct (find needle hay) as [[pre' post']|]; [|discriminate].
      intros [= <- <-]. now rewrite (IH pre' eq_refl).
Qed.

Lemma find_infix needle hay : is_Some (find needle hay) -> infix needle hay.
Proof. intros [[pre post] H]. exists pre, post. now apply find_sound. Qed.

Lemma infix_app_l needle a hay : infix needle hay -> infix needle (a +:+ hay).
Proof.
  intros (pre & post & ->). exists (a +:+ pre), post. now rewrite append_assoc.
Qed.

Lemma infix_app_r needle hay b : infix needle hay -> infix needle (hay +:+ b).
Proof.
  intros (pre & post & ->). exists pre, (post +:+ b). now rewrite !append_assoc.
Qed.

Lemma infix_here needle b : infix needle (needle +:+ b).
Proof. now exists EmptyString, b. Qed.

(** C7: for every major (in the table or not) and every question, empty
    strings included, and for any data and past turns, the template is
    built and formatted without an exception; the prompt is the system
    message, the past turns, then the human message; the instruction text
    stands verbatim in the system message; the major and the question
    are copied unchanged into both messages. *)
Theorem prompt_assembler_total (repr_messages : list BaseMessage -> string)
    (major user_input : string) (career_data : list (string * KnowledgeEntry))
    (past : list BaseMessage) :
  exists tpl sys,
    get_prompt_template = Ok tpl
    /\ format_messages repr_messages
         (<["chat_history" := VMessages past]>
            (chatbot_inputs user_input major career_data)) tpl
       = Ok (SystemMessage sys
               :: past ++ [HumanMessage ("Major: " +:+ major +:+ nl +:+ "Input: " +:+ user_input)])
    /\ chatbot_inputs user_input major career_data !! "major" = Some (VStr major)
    /\ chatbot_inputs user_input major career_data !! "user_input" = Some (VStr user_input)
    /\ infix instruction_head sys
    /\ infix instruction_tail sys
    /\ infix ("User input: Major: " +:+ major +:+ nl +:+ "Input: " +:+ user_input +:+ nl) sys.
Proof.
  exists prompt_template,
    (system_text repr_messages career_data past major user_input).
  split; [apply get_prompt_template_ok|].
  split.
  { rewrite format_prompt_template. unfold assembled_prompt, human_text.
    now rewrite !append_assoc. }
  split.
  { unfold chatbot_inputs. cbv zeta.
    rewrite lookup_insert_ne by (intros ?; discriminate). apply lookup_insert_eq. }
  split; [apply chatbot_inputs_user_input|].
  unfold system_text. split; [|split].
  - rewrite !append_assoc. apply (infix_app_l _ nl), infix_here.
  - do 8 apply infix_app_l. do 2 apply (infix_app_l _ nl). apply infix_here.
  - do 4 apply infix_app_l. rewrite !append_assoc.
    do 2 apply (infix_app_l _ nl).
    exists EmptyString, (nl +:+ instruction_tail +:+ nl).
    rewrite !append_assoc.
    cbn [String.append]. reflexivity.
Qed.

(** ** End to end, session "s1" *)

(** C4: session "s1", major "Computer Science", question "What skills
    should I learn?", model stubbed to answer "Learn Python and data
    analysis.": the call returns that answer; the one request made carries
    a system message that contains, as written text, the careers list
    with "Software Engineer", "Data Scientist", "Cybersecurity Analyst"
    and the skills list with "Python", "Java", "Data Analysis",
    "Cybersecurity", in this order, under the name of the major, and a
    human message with the major and the question; and the history under
    "s1" is the question as the user turn followed by the answer as the
    assistant turn, nothing else. *)
Theorem end_to_end_s1 (repr_messages : list BaseMessage -> string) (api_key : string) :
  let question := "What skills should I learn?" in
  let answer := "Learn Python and data analysis." in
  let llm := {| model := "gemini-1.5-flash"; google_api_key := api_key |} in
  let run :=
    chatbot_response repr_messages (Stub.replies answer) question "Computer Science"
      (main_runnable llm) load_career_data (Some "s1") Stub.empty_world in
  run.1 = Ok answer
  /\ session_state run.2 !! "s1"
     = Some (ChatMessageHistory [HumanMessage question; AIMessage answer])
  /\ history_of "s1" run.2 = [HumanMessage question; AIMessage answer]
  /\ exists sys,
       log run.2
       = [llm_request api_key
            [SystemMessage sys;
             HumanMessage ("Major: Computer Science" +:+ nl +:+ "Input: " +:+ question)]]
       /\ infix careers_text sys
       /\ infix skills_text sys
       /\ infix computer_science_text sys.
Proof.
  intros question answer llm run.
  split; [vm_compute; reflexivity|].
  split; [vm_compute; reflexivity|].
  split; [vm_compute; reflexivity|].
  exists (system_text repr_messages load_career_data [] "Computer Science" question).
  split; [vm_compute; reflexivity|].
  unfold system_text.
  repeat split; apply infix_app_l, infix_app_r, find_infix; vm_compute; eauto.
Qed.

(** ** History store *)

Lemma history_of_inserted s l (w : World) m :
  history_of s (set_session_state (<[s := ChatMessageHistory l]> m) w) = l.
Proof. unfold history_of. cbn [session_state set_session_state]. now rewrite lookup_insert_eq. Qed.

Lemma append_turn_spec s m w :
  history_ok s w ->
  (append_turn s m w).1 = Ok tt
  /\ history_of s (append_turn s m w).2 = history_of s w ++ [m]
  /\ history_ok s (append_turn s m w).2.
Proof.
  intros Hok. destruct (get_session_history_lookup s w Hok) as (Hr & Hs & _).
  unfold append_turn, bind.
  destruct (get_session_history s w) as [r0 w0]. simpl in Hr, Hs. subst r0.
  unfold add_messages. rewrite Hs. cbn [fst snd].
  split; [reflexivity|]. split; [apply history_of_inserted|].
  unfold history_ok. cbn [session_state set_session_state].
  now rewrite lookup_insert_eq.
Qed.

Lemma append_turns_spec s ms w :
  history_ok s w ->
  (append_turns s ms w).1 = Ok tt
  /\ history_of s (append_turns s ms w).2 = history_of s w ++ ms.
Proof.
  revert w. induction ms as [|m ms IH]; intros w Hok.
  - simpl. now rewrite app_nil_r.
  - destruct (append_turn_spec s m w Hok) as (Hr & Hh & Hok').
    destruct (append_turn s m w) as [r0 w0] eqn:E. simpl in Hr, Hh, Hok'. subst r0.
    assert (Hstep : append_turns s (m :: ms) w = append_turns s ms w0)
      by (cbn [append_turns]; now rewrite (bind_ok _ _ _ _ _ E)).
    rewrite Hstep.
    destruct (IH w0 Hok') as (Hr' & Hh').
    split; [exact Hr'|]. rewrite Hh', Hh, <- app_assoc. reflexivity.
Qed.

Lemma append_turns_outside s ms : keeps (outside (eq s)) (append_turns s ms).
Proof.
  induction ms as [|m ms IH]; cbn [append_turns].
  - apply keeps_ret, outside_refl.
  - apply keeps_bind; [apply outside_trans| |intros _; exact IH].
    unfold append_turn.
    apply keeps_bind; [apply outside_trans| |intros _].
    + now apply get_session_history_outside.
    + now apply add_messages_outside.
Qed.

(** C1: [get_session_history s] returns what is stored under [s] and
    leaves the store alone, or, when nothing is stored under [s], stores
    an empty history there and returns it.  Turns appended under a session
    id [s1] change nothing under another id [s2].  Appending to a history
    only adds at its end, in call order: the turns already there stay in
    front, and on a fresh id the history is exactly the appended turns, as
    many as were appended. *)
Theorem session_history_contract (w : World) (s s1 s2 : string)
    (ms : list BaseMessage) :
  s1 <> s2 ->
  match session_state w !! s with
  | Some v => get_session_history s w = (Ok v, w)
  | None =>
      get_session_history s w
      = (Ok (ChatMessageHistory []),
         set_session_state (<[s := ChatMessageHistory []]> (session_state w)) w)
  end
  /\ session_state (get_session_history s1 w).2 !! s2 = session_state w !! s2
  /\ session_state (append_turns s1 ms w).2 !! s2 = session_state w !! s2
  /\ history_of s2 (append_turns s1 ms w).2 = history_of s2 w
  /\ (history_ok s1 w ->
      (append_turns s1 ms w).1 = Ok tt
      /\ history_of s1 (append_turns s1 ms w).2 = history_of s1 w ++ ms)
  /\ (session_state w !! s1 = None ->
      history_of s1 (append_turns s1 ms w).2 = ms
      /\ length (history_of s1 (append_turns s1 ms w).2) = length ms).
Proof.
  intros Hne.
  split.
  { unfold get_session_history. now destruct (session_state w !! s). }
  split.
  { now apply (get_session_history_outside (eq s1) s1 eq_refl w s2). }
  assert (Hiso : session_state (append_turns s1 ms w).2 !! s2 = session_state w !! s2)
    by now apply (append_turns_outside s1 ms w s2).
  split; [exact Hiso|].
  split; [unfold history_of; now rewrite Hiso|].
  split; [apply append_turns_spec|].
  intros Hnone.
  assert (Hok : history_ok s1 w) by (unfold history_ok; now rewrite Hnone).
  destruct (append_turns_spec s1 ms w Hok) as (_ & Hh).
  assert (He : history_of s1 w = []) by (unfold history_of; now rewrite Hnone).
  rewrite Hh, He. now split.
Qed.

Lemma session_history_contract_witness :
  "s1" <> "s2"
  /\ history_of "s1"
       (append_turns "s1" [HumanMessage "hi"; AIMessage "hello"] Stub.empty_world).2
     = [HumanMessage "hi"; AIMessage "hello"].
Proof.
  split; [discriminate|].
  apply (session_history_contract Stub.empty_world "s1" "s1" "s2"
           [HumanMessage "hi"; AIMessage "hello"]); [discriminate|reflexivity].
Defined.

(** ** The one session key of the program *)

Lemma outside_same_histories sid {A} (m : M A) :
  keeps (outside (eq sid)) m -> keeps (same_histories_except sid) m.
Proof.
  intros H w k Hk. unfold history_of. rewrite (H w k); [reflexivity|].
  intros <-. now apply Hk.
Qed.

Lemma main_same_histories repr_messages CG gemini ui :
  keeps (same_histories_except "default") (main repr_messages CG gemini ui).
Proof.
  apply (keeps_main (same_histories_except "default")) with (sid := "default");
    try reflexivity.
  - now intros w k _.
  - intros a b c H1 H2 k Hk. rewrite (H2 k Hk). now apply H1.
  - now intros w ev k _.
  - apply outside_same_histories. now apply get_session_history_outside.
  - intros new. apply outside_same_histories. now apply add_messages_outside.
  - intros w k _. unfold init_messages, history_of.
    destruct (session_state w !! "messages") eqn:E; [reflexivity|].
    cbn [snd session_state set_session_state].
    destruct (decide (k = "messages")) as [->|Hk].
    + now rewrite lookup_insert_eq, E.
    + now rewrite lookup_insert_ne.
  - intros t w k _. unfold messages_append, history_of.
    destruct (session_state w !! "messages") as [[l|l]|] eqn:E; try reflexivity.
    cbn [snd session_state set_session_state].
    destruct (decide (k = "messages")) as [->|Hk].
    + now rewrite lookup_insert_eq, E.
    + now rewrite lookup_insert_ne.
Qed.

(** ** One run of [main], step by step *)

Lemma requests_app a b : requests (a ++ b) = requests a ++ requests b.
Proof. unfold requests. apply flat_map_app. Qed.

Lemma display_run l w :
  display l w
  = (Ok tt,
     {| files := files w; environ := environ w; session_state := session_state w;
        log := log w ++ map (fun t => st_chat_message (role t) (content t)) l |}).
Proof.
  revert w. induction l as [|t l IH]; intros w.
  - simpl. unfold ret. rewrite app_nil_r. now destruct w.
  - cbn [display]. unfold bind, tell. rewrite IH. unfold emit. simpl.
    now rewrite <- app_assoc.
Qed.

Lemma obtain_api_key_run ui w :
  exists evs,
    obtain_api_key ui w
    = (Ok (credential ui w),
       {| files := files w; environ := environ w; session_state := session_state w;
          log := log w ++ evs |})
    /\ requests evs = []
    /\ (credential ui w = None ->
        last evs = Some (st_error "Gemini API key is required to proceed.")).
Proof.
  destruct w as [f en ss lg].
  cbv beta iota zeta delta
    [obtain_api_key credential bind os_getenv text_input tell ret emit
     files environ session_state log].
  destruct (truthy_opt (en !! "GOOGLE_API_KEY")) eqn:E.
  - exists []. rewrite app_nil_r.
    split; [reflexivity|]. split; [reflexivity|].
    intros H. rewrite H in E. discriminate.
  - destruct (truthy (api_key_field ui)).
    + eexists. rewrite <- !app_assoc.
      split; [reflexivity|]. split; [reflexivity|discriminate].
    + eexists. rewrite <- !app_assoc.
      split; [reflexivity|]. split; reflexivity.
Qed.

Lemma bind_fst {A B} (m : M A) (k : A -> M B) w a :
  (m w).1 = Ok a -> bind m k w = k a (m w).2.
Proof. unfold bind. destruct (m w) as [r w']; simpl. now intros ->. Qed.

Lemma init_messages_fst w : (init_messages w).1 = Ok tt.
Proof. unfold init_messages. now destruct (session_state w !! "messages"). Qed.

Lemma init_messages_lookup w :
  session_state (init_messages w).2 !! "messages"
  = match session_state w !! "messages" with
    | None => Some (TurnList [])
    | Some v => Some v
    end.
Proof.
  unfold init_messages. destruct (session_state w !! "messages") eqn:E; simpl.
  - exact E.
  - apply lookup_insert_eq.
Qed.

Lemma init_messages_transcript w : transcript (init_messages w).2 = transcript w.
Proof.
  unfold transcript. rewrite init_messages_lookup.
  now destruct (session_state w !! "messages").
Qed.

Lemma init_messages_same w :
  files (init_messages w).2 = files w
  /\ environ (init_messages w).2 = environ w
  /\ log (init_messages w).2 = log w.
Proof. unfold init_messages. now destruct (session_state w !! "messages"). Qed.

Lemma obtain_api_key_fst ui w : (obtain_api_key ui w).1 = Ok (credential ui w).
Proof. destruct (obtain_api_key_run ui w) as (evs & -> & _). reflexivity. Qed.

Lemma obtain_api_key_same ui w :
  files (obtain_api_key ui w).2 = files w
  /\ environ (obtain_api_key ui w).2 = environ w
  /\ session_state (obtain_api_key ui w).2 = session_state w
  /\ requests (log (obtain_api_key ui w).2) = requests (log w).
Proof.
  destruct (obtain_api_key_run ui w) as (evs & -> & Hr & _). simpl.
  repeat split. now rewrite requests_app, Hr, app_nil_r.
Qed.

Lemma keyed_same ui w :
  files (keyed ui w) = files w
  /\ environ (keyed ui w) = environ w
  /\ session_state (keyed ui w) !! "messages"
     = match session_state w !! "messages" with
       | None => Some (TurnList [])
       | Some v => Some v
       end
  /\ transcript (keyed ui w) = transcript w
  /\ requests (log (keyed ui w)) = requests (log w)
  /\ forall k, k <> "messages" -> session_state (keyed ui w) !! k = session_state w !! k.
Proof.
  unfold keyed.
  set (w0 := emit _ (emit _ w)).
  destruct (obtain_api_key_same ui (init_messages w0).2) as (Hf & He & Hs & Hr).
  destruct (init_messages_same w0) as (Hf' & He' & Hl').
  rewrite Hf, He, Hr, Hl', Hf', He'. unfold transcript at 1. rewrite Hs.
  split; [reflexivity|]. split; [reflexivity|].
  split; [now rewrite init_messages_lookup|].
  split; [apply (init_messages_transcript w0)|].
  split.
  - subst w0. cbn [log emit]. rewrite !requests_app. simpl. now rewrite !app_nil_r.
  - intros k Hk. apply (init_messages_outside (eq "messages") eq_refl w0 k).
    congruence.
Qed.

Lemma credential_keyed ui w :
  credential ui
    (init_messages
       (emit (st_write "Enter your academic major and ask for career advice!")
          (emit (st_title "AI Career Guidance Chatbot for Undergraduates") w))).2
  = credential ui w.
Proof.
  unfold credential.
  destruct (init_messages_same
              (emit (st_write "Enter your academic major and ask for career advice!")
                 (emit (st_title "AI Career Guidance Chatbot for Undergraduates") w)))
    as (_ & -> & _).
  reflexivity.
Qed.

(** [main], case by case. *)
Lemma main_run repr_messages CG gemini ui w :
  main repr_messages CG gemini ui w
  = match credential ui w with
    | None => (Ok tt, keyed ui w)
    | Some api_key =>
        match CG "gemini-1.5-flash" api_key with
        | Raise e =>
            (Ok tt,
             emit (st_error ("Failed to initialize Gemini model: " +:+ str e))
               (keyed ui w))
        | Ok llm =>
            match session_state w !! "messages" with
            | Some (ChatMessageHistory _) =>
                (Raise (Exception "TypeError"
                          "tuple indices must be integers or slices, not str"),
                 emit (st_text_input "Ask a career-related question:" false)
                   (emit (st_text_input
                            "Enter your academic major (e.g., Computer Science, Business, Biology):"
                            false) (keyed ui w)))
            | _ =>
                handle_input repr_messages gemini (question_field ui) (major_field ui)
                  (main_runnable llm) load_career_data (ready ui w)
            end
        end
    end.
Proof.
  unfold main.
  rewrite (bind_fst _ _ _ tt) by reflexivity.
  rewrite (bind_fst _ _ _ tt) by reflexivity.
  rewrite (bind_fst _ _ _ tt) by apply init_messages_fst.
  cbv zeta. cbn [tell snd].
  rewrite (bind_fst _ _ _ _ (obtain_api_key_fst _ _)).
  rewrite credential_keyed. fold (keyed ui w).
  destruct (credential ui w) as [api_key|]; [|reflexivity].
  pose proof (initialize_cases CG api_key (keyed ui w)) as Hi.
  destruct (CG "gemini-1.5-flash" api_key) as [llm|e].
  2:{ now rewrite (bind_ok _ _ _ _ _ Hi). }
  rewrite (bind_ok _ _ _ _ _ Hi).
  unfold text_input.
  rewrite (bind_fst _ _ _ (major_field ui)) by reflexivity.
  rewrite (bind_fst _ _ _ (question_field ui)) by reflexivity.
  cbn [bind tell ret snd fst].
  destruct (keyed_same ui w) as (_ & _ & Hm & _).
  set (wC := emit _ (emit _ (keyed ui w))).
  assert (HmC : session_state wC !! "messages" = session_state (keyed ui w) !! "messages")
    by reflexivity.
  unfold bind at 1. unfold session_messages at 1. rewrite HmC, Hm.
  assert (Hready : forall l, session_state wC !! "messages" = Some (TurnList l) ->
            ready ui w = (display l wC).2).
  { intros l Hl. unfold ready. cbv zeta. fold wC.
    unfold transcript. now rewrite Hl. }
  destruct (session_state w !! "messages") as [[l|l]|] eqn:E.
  - rewrite (Hready l) by (now rewrite HmC, Hm).
    now rewrite (bind_fst _ _ _ tt) by (now rewrite display_run).
  - reflexivity.
  - rewrite (Hready []) by (now rewrite HmC, Hm).
    now rewrite (bind_fst _ _ _ tt) by (now rewrite display_run).
Qed.

Lemma ready_same ui w :
  files (ready ui w) = files w
  /\ environ (ready ui w) = environ w
  /\ session_state (ready ui w) = session_state (keyed ui w)
  /\ transcript (ready ui w) = transcript w
  /\ requests (log (ready ui w)) = requests (log w).
Proof.
  destruct (keyed_same ui w) as (Hf & He & _ & Ht & Hr & _).
  unfold ready. cbv zeta. rewrite display_run.
  cbn [snd files environ session_state log emit].
  split; [exact Hf|]. split; [exact He|]. split; [reflexivity|].
  split; [exact Ht|].
  rewrite !requests_app, Hr. cbn [requests flat_map app]. rewrite !app_nil_r.
  set (l := transcript _). clearbody l.
  induction l as [|t l IH]; [now rewrite app_nil_r|exact IH].
Qed.

Lemma handle_input_idle repr_messages gemini user_input major r data w :
  (truthy user_input && truthy major)%bool = false ->
  handle_input repr_messages gemini user_input major r data w = (Ok tt, w).
Proof. unfold handle_input. now intros ->. Qed.

Lemma after_user_turn_state user_input w l :
  session_state w !! "messages" = Some (TurnList l) ->
  after_user_turn user_input w
  = set_session_state
      (<["messages" := TurnList (l ++ [user_turn user_input])]> (session_state w))
      (emit (st_chat_message "user" user_input) w).
Proof.
  intros H. unfold after_user_turn, messages_append.
  cbn [session_state emit]. now rewrite H.
Qed.

Lemma handle_input_run repr_messages gemini user_input major r data w l :
  session_history_factory r = get_session_history ->
  truthy user_input = true -> truthy major = true ->
  session_state w !! "messages" = Some (TurnList l) ->
  let call :=
    chatbot_response repr_messages gemini user_input major r data None
      (after_user_turn user_input w) in
  transcript call.2 = l ++ [user_turn user_input]
  /\ handle_input repr_messages gemini user_input major r data w
     = match call.1 with
       | Ok response =>
           (Ok tt,
            set_session_state
              (<["messages" :=
                   TurnList (l ++ [user_turn user_input; assistant_turn response])]>
                 (session_state call.2))
              (emit (st_chat_message "assistant" response) call.2))
       | Raise e =>
           (Ok tt, emit (st_error ("Error generating response: " +:+ str e)) call.2)
       end.
Proof.
  intros Hf Hq Hm Hl call.
  assert (Hmsg : session_state call.2 !! "messages"
                 = Some (TurnList (l ++ [user_turn user_input]))).
  { subst call.
    rewrite (chatbot_response_outside _ _ _ _ _ _ None Hf _ "messages")
      by (cbn [default]; discriminate).
    rewrite (after_user_turn_state _ _ _ Hl). cbn [session_state set_session_state].
    apply lookup_insert_eq. }
  split; [unfold transcript; now rewrite Hmsg|].
  unfold handle_input. rewrite Hq, Hm. cbn [andb].
  rewrite (bind_fst _ _ _ tt) by reflexivity.
  rewrite (bind_fst _ _ _ tt)
    by (unfold messages_append; cbn [tell snd session_state emit]; now rewrite Hl).
  cbn [tell snd]. fold (user_turn user_input). fold (after_user_turn user_input w).
  unfold try_except. fold call.
  unfold bind at 1. fold call.
  destruct call as [[response|e] w2]; cbn [fst snd] in *; [|reflexivity].
  unfold bind, tell, messages_append. cbn [session_state emit].
  rewrite Hmsg. rewrite <- app_assoc. reflexivity.
Qed.

Lemma ready_log ui w :
  exists evs, log (ready ui w) = log w ++ evs /\ requests evs = [].
Proof.
  unfold ready, keyed. cbv zeta. rewrite display_run. cbn [snd log emit].
  set (w0 := emit _ (emit _ w)).
  destruct (obtain_api_key_run ui (init_messages w0).2) as (evs & -> & Hr & _).
  destruct (init_messages_same w0) as (_ & _ & Hl).
  cbn [snd log]. rewrite Hl. subst w0. cbn [log emit].
  set (shown := map _ _).
  assert (Hs : requests shown = []).
  { subst shown. set (l := transcript _). clearbody l.
    induction l as [|t l IH]; [reflexivity|exact IH]. }
  eexists. rewrite <- !app_assoc. split; [reflexivity|].
  rewrite !requests_app, Hr, Hs. reflexivity.
Qed.

Lemma ready_messages ui w :
  match session_state w !! "messages" with
  | Some (ChatMessageHistory _) => False
  | _ => True
  end ->
  session_state (ready ui w) !! "messages" = Some (TurnList (transcript w)).
Proof.
  intros H. destruct (ready_same ui w) as (_ & _ & -> & _).
  destruct (keyed_same ui w) as (_ & _ & -> & _).
  unfold transcript. now destruct (session_state w !! "messages") as [[l|l]|].
Qed.

Lemma ready_default ui w (k : string) :
  k <> "messages" -> session_state (ready ui w) !! k = session_state w !! k.
Proof.
  intros Hk. destruct (ready_same ui w) as (_ & _ & -> & _).
  now apply keyed_same.
Qed.

(** With a credential, a client and a usable transcript, [main] gets to
    line 121 in the world [ready ui w]. *)
Lemma main_interaction repr_messages CG gemini ui w api_key llm :
  credential ui w = Some api_key ->
  CG "gemini-1.5-flash" api_key = Ok llm ->
  match session_state w !! "messages" with
  | Some (ChatMessageHistory _) => False
  | _ => True
  end ->
  main repr_messages CG gemini ui w
  = handle_input repr_messages gemini (question_field ui) (major_field ui)
      (main_runnable llm) load_career_data (ready ui w).
Proof.
  intros Hc Hg Hm. rewrite main_run, Hc, Hg.
  now destruct (session_state w !! "messages") as [[l|l]|].
Qed.

(** *** When the model call fails *)

(** C2: in a run where [main] gets to call [chatbot_response] and the
    call raises [e], the run ends normally, the last thing shown is the
    error message made from [e], and nothing is appended to the transcript
    after the call: its assistant turns are those it had before the run. *)
Theorem model_failure_shows_error
    (repr_messages : list BaseMessage -> string)
    (CG : string -> string -> result ChatModel)
    (gemini : list Event -> ChatModel -> list BaseMessage -> result string)
    (ui : Widgets) (w : World) (api_key : string) (llm : ChatModel)
    (e : exn) (w2 : World) :
  credential ui w = Some api_key ->
  CG "gemini-1.5-flash" api_key = Ok llm ->
  match session_state w !! "messages" with
  | Some (ChatMessageHistory _) => False
  | _ => True
  end ->
  truthy (question_field ui) = true ->
  truthy (major_field ui) = true ->
  chatbot_response repr_messages gemini (question_field ui) (major_field ui)
    (main_runnable llm) load_career_data None
    (after_user_turn (question_field ui) (ready ui w))
  = (Raise e, w2) ->
  let out := main repr_messages CG gemini ui w in
  out.1 = Ok tt
  /\ log out.2 = log w2 ++ [st_error ("Error generating response: " +:+ str e)]
  /\ transcript out.2 = transcript w2
  /\ filter is_assistant (transcript out.2) = filter is_assistant (transcript w).
Proof.
  intros Hc Hg Hm Hq Hmaj Hcall out. subst out.
  rewrite (main_interaction _ _ _ _ _ _ _ Hc Hg Hm).
  destruct (handle_input_run repr_messages gemini (question_field ui) (major_field ui)
              (main_runnable llm) load_career_data (ready ui w) (transcript w)
              eq_refl Hq Hmaj (ready_messages ui w Hm)) as (Ht & ->).
  rewrite Hcall in *. cbn [fst snd] in *.
  split; [reflexivity|]. split; [reflexivity|].
  split; [reflexivity|].
  change (transcript (emit (st_error ("Error generating response: " +:+ str e)) w2))
    with (transcript w2).
  rewrite Ht, filter_app. cbn. now rewrite app_nil_r.
Qed.

Lemma model_failure_shows_error_witness :
  let ui := Stub.ask "Art" "What skills?" in
  let out := main Stub.repr_messages Stub.client Stub.unavailable ui Stub.world_with_key in
  credential ui Stub.world_with_key = Some "k"
  /\ out.1 = Ok tt
  /\ filter is_assistant (transcript out.2) = [].
Proof.
  intros ui out. split; [reflexivity|].
  set (llm := {| model := "gemini-1.5-flash"; google_api_key := "k" |}).
  set (call :=
         chatbot_response Stub.repr_messages Stub.unavailable
           (question_field ui) (major_field ui) (main_runnable llm)
           load_career_data None
           (after_user_turn (question_field ui) (ready ui Stub.world_with_key))).
  pose proof (model_failure_shows_error Stub.repr_messages Stub.client
                Stub.unavailable ui Stub.world_with_key "k" llm
                (Exception "ConnectionError" "service unavailable") call.2
                eq_refl eq_refl I eq_refl eq_refl) as H.
  assert (Hcall : call = (Raise (Exception "ConnectionError" "service unavailable"), call.2))
    by (vm_compute; reflexivity).
  destruct (H Hcall) as (H1 & _ & _ & H4).
  split; [exact H1|exact H4].
Defined.

(** C10: the user turn is appended before [chatbot_response] is called;
    when the call raises, the block of lines 121-133 ends normally with
    the transcript exactly one turn longer than it was, that user turn
    last: the turn is not taken back. *)
Theorem failed_interaction_keeps_user_turn
    (repr_messages : list BaseMessage -> string)
    (gemini : list Event -> ChatModel -> list BaseMessage -> result string)
    (user_input major : string) (r : RunnableWithMessageHistory)
    (data : list (string * KnowledgeEntry)) (w : World) (l : list Turn)
    (e : exn) (w2 : World) :
  session_history_factory r = get_session_history ->
  truthy user_input = true ->
  truthy major = true ->
  session_state w !! "messages" = Some (TurnList l) ->
  chatbot_response repr_messages gemini user_input major r data None
    (after_user_turn user_input w)
  = (Raise e, w2) ->
  let out := handle_input repr_messages gemini user_input major r data w in
  transcript w = l
  /\ transcript (after_user_turn user_input w) = l ++ [user_turn user_input]
  /\ out.1 = Ok tt
  /\ transcript out.2 = l ++ [user_turn user_input]
  /\ length (transcript out.2) = S (length (transcript w))
  /\ last (transcript out.2) = Some (user_turn user_input)
  /\ transcript out.2 <> transcript w.
Proof.
  intros Hf Hq Hmaj Hl Hcall out. subst out.
  destruct (handle_input_run repr_messages gemini user_input major r data w l
              Hf Hq Hmaj Hl) as (Ht & ->).
  rewrite Hcall in *. cbn [fst snd] in *.
  change (transcript (emit (st_error ("Error generating response: " +:+ str e)) w2))
    with (transcript w2).
  assert (Hw : transcript w = l) by (unfold transcript; now rewrite Hl).
  rewrite Ht, Hw.
  split; [reflexivity|].
  split.
  { rewrite (after_user_turn_state _ _ _ Hl). unfold transcript.
    cbn [session_state set_session_state]. now rewrite lookup_insert_eq. }
  split; [reflexivity|]. split; [reflexivity|].
  split; [rewrite length_app; simpl; lia|].
  split; [apply last_snoc|].
  intros H. apply (f_equal length) in H. rewrite length_app in H. simpl in H. lia.
Qed.

Lemma failed_interaction_keeps_user_turn_witness :
  let w := (init_messages Stub.world_with_key).2 in
  let out :=
    handle_input Stub.repr_messages Stub.unavailable "What skills?" "Art"
      (main_runnable {| model := "gemini-1.5-flash"; google_api_key := "k" |})
      load_career_data w in
  session_state w !! "messages" = Some (TurnList [])
  /\ transcript out.2 = [user_turn "What skills?"].
Proof.
  intros w out. split; [reflexivity|].
  set (llm := {| model := "gemini-1.5-flash"; google_api_key := "k" |}).
  set (call :=
         chatbot_response Stub.repr_messages Stub.unavailable "What skills?" "Art"
           (main_runnable llm) load_career_data None
           (after_user_turn "What skills?" w)).
  assert (Hcall : call = (Raise (Exception "ConnectionError" "service unavailable"), call.2))
    by (vm_compute; reflexivity).
  apply (failed_interaction_keeps_user_turn Stub.repr_messages Stub.unavailable
           "What skills?" "Art" (main_runnable llm) load_career_data w []
           (Exception "ConnectionError" "service unavailable") call.2
           eq_refl eq_refl eq_refl eq_refl Hcall).
Defined.

(** *** Without a credential *)

(** C6: when the environment has no usable GOOGLE_API_KEY and the key
    field is left empty, [main] returns at line 92: the run ends normally,
    the last thing shown is the message that a key is required, no request
    has been made to the model, the transcript has the turns it had, and
    no key of [st.session_state] other than "messages" has changed. *)
Theorem missing_credential_halts
    (repr_messages : list BaseMessage -> string)
    (CG : string -> string -> result ChatModel)
    (gemini : list Event -> ChatModel -> list BaseMessage -> result string)
    (ui : Widgets) (w : World) :
  truthy_opt (environ w !! "GOOGLE_API_KEY") = false ->
  truthy (api_key_field ui) = false ->
  let out := main repr_messages CG gemini ui w in
  out.1 = Ok tt
  /\ last (log out.2) = Some (st_error "Gemini API key is required to proceed.")
  /\ requests (log out.2) = requests (log w)
  /\ transcript out.2 = transcript w
  /\ (forall k, k <> "messages" -> session_state out.2 !! k = session_state w !! k)
  /\ files out.2 = files w
  /\ environ out.2 = environ w.
Proof.
  intros He Hf out. subst out.
  assert (Hc : credential ui w = None) by (unfold credential; now rewrite He, Hf).
  rewrite main_run, Hc. cbn [fst snd].
  destruct (keyed_same ui w) as (Hfi & Hen & _ & Ht & Hr & Hk).
  split; [reflexivity|].
  split; [|now repeat split].
  unfold keyed.
  destruct (obtain_api_key_run ui
              (init_messages
                 (emit (st_write "Enter your academic major and ask for career advice!")
                    (emit (st_title "AI Career Guidance Chatbot for Undergraduates") w))).2)
    as (evs & -> & _ & Hlast).
  cbn [snd log]. rewrite last_app, Hlast; [reflexivity|].
  now rewrite credential_keyed.
Qed.

Lemma missing_credential_halts_witness :
  let out :=
    main Stub.repr_messages Stub.client (Stub.replies "hello")
      (Stub.ask "Business" "What now?") Stub.empty_world in
  truthy_opt (environ Stub.empty_world !! "GOOGLE_API_KEY") = false
  /\ out.1 = Ok tt
  /\ requests (log out.2) = [].
Proof.
  intros out. split; [reflexivity|].
  destruct (missing_credential_halts Stub.repr_messages Stub.client
              (Stub.replies "hello") (Stub.ask "Business" "What now?")
              Stub.empty_world eq_refl eq_refl) as (H1 & _ & H3 & _).
  split; [exact H1|exact H3].
Defined.

(** *** One interaction *)

Lemma wf_ready_default ui w user_input :
  wf w -> history_ok "default" (after_user_turn user_input (ready ui w)).
Proof.
  intros [Hm Hd]. unfold history_ok in *.
  rewrite (after_user_turn_state _ _ _ (ready_messages ui w Hm)).
  cbn [session_state set_session_state emit].
  rewrite lookup_insert_ne by discriminate.
  now rewrite ready_default by discriminate.
Qed.

(** C5: in a run of [main] that has its credential and its client, on a
    state of the program's own making: the run always ends normally (the
    loop is idle again).  When the question and the major are both
    non-empty, the run shows the question, makes one request to the model
    and shows its answer or an error message, in this order and with
    nothing after; the transcript gets the user turn, and after it the
    assistant turn if the model answered, nothing if the call failed.
    When either field is empty, no request is made, and the transcript
    and the history are as they were. *)
Theorem presentation_loop_interaction
    (repr_messages : list BaseMessage -> string)
    (CG : string -> string -> result ChatModel)
    (gemini : list Event -> ChatModel -> list BaseMessage -> result string)
    (ui : Widgets) (w : World) (api_key : string) (llm : ChatModel) :
  credential ui w = Some api_key ->
  CG "gemini-1.5-flash" api_key = Ok llm ->
  wf w ->
  let out := main repr_messages CG gemini ui w in
  let user_input := question_field ui in
  out.1 = Ok tt
  /\ if (truthy user_input && truthy (major_field ui))%bool then
       exists evs prompt outcome,
         log out.2
         = log w ++ evs ++ [st_chat_message "user" user_input;
                            llm_request (google_api_key llm) prompt; outcome]
         /\ requests evs = []
         /\ requests (log out.2) = requests (log w) ++ [prompt]
         /\ ((exists answer,
                outcome = st_chat_message "assistant" answer
                /\ transcript out.2
                   = transcript w ++ [user_turn user_input; assistant_turn answer])
             \/ (exists e,
                   outcome = st_error ("Error generating response: " +:+ str e)
                   /\ transcript out.2 = transcript w ++ [user_turn user_input]))
     else
       log out.2 = log (ready ui w)
       /\ requests (log out.2) = requests (log w)
       /\ transcript out.2 = transcript w
       /\ session_state out.2 !! "default" = session_state w !! "default".
Proof.
  intros Hc Hg Hwf out user_input. subst out user_input.
  pose proof Hwf as [Hm Hd].
  rewrite (main_interaction _ _ _ _ _ _ _ Hc Hg Hm).
  destruct (ready_same ui w) as (_ & _ & _ & Htr & Hreq).
  destruct (truthy (question_field ui) && truthy (major_field ui))%bool eqn:Eb.
  2:{ rewrite handle_input_idle by exact Eb. cbn [fst snd].
      repeat split; auto. now apply ready_default. }
  apply andb_prop in Eb as [Hq Hmaj].
  destruct (handle_input_run repr_messages gemini (question_field ui) (major_field ui)
              (main_runnable llm) load_career_data (ready ui w) (transcript w)
              eq_refl Hq Hmaj (ready_messages ui w Hm)) as (Ht & ->).
  pose proof (chatbot_response_run repr_messages gemini (question_field ui)
                (major_field ui) llm load_career_data None
                (after_user_turn (question_field ui) (ready ui w))
                (wf_ready_default ui w _ Hwf)) as Hrun.
  cbv zeta in Hrun. cbn [default] in Hrun.
  set (w1 := after_user_turn (question_field ui) (ready ui w)) in *.
  set (prompt := assembled_prompt _ _ _ _ _) in *.
  assert (Hlog1 : log (get_session_history "default" w1).2
                  = log (ready ui w) ++ [st_chat_message "user" (question_field ui)]).
  { destruct (get_session_history_lookup "default" w1 (wf_ready_default ui w _ Hwf))
      as (_ & _ & ->).
    subst w1. now rewrite (after_user_turn_state _ _ _ (ready_messages ui w Hm)). }
  destruct (ready_log ui w) as (evs & Hevs & Hnone).
  rewrite Hrun.
  destruct (gemini (log w1) llm prompt) as [answer|e]; cbn [fst snd].
  - split; [reflexivity|].
    exists evs, prompt, (st_chat_message "assistant" answer).
    cbn [log set_session_state emit]. rewrite Hlog1, Hevs.
    split; [now rewrite <- !app_assoc|].
    split; [exact Hnone|].
    split.
    { rewrite !requests_app, Hnone. cbn. now rewrite !app_nil_r. }
    left. exists answer. split; [reflexivity|].
    unfold transcript at 1. cbn [session_state set_session_state].
    now rewrite lookup_insert_eq.
  - split; [reflexivity|].
    exists evs, prompt, (st_error ("Error generating response: " +:+ str e)).
    cbn [log emit]. rewrite Hlog1, Hevs.
    split; [now rewrite <- !app_assoc|].
    split; [exact Hnone|].
    split.
    { rewrite !requests_app, Hnone. cbn. now rewrite !app_nil_r. }
    right. exists e. split; [reflexivity|].
    rewrite Hrun in Ht. exact Ht.
Qed.

Lemma presentation_loop_interaction_witness :
  let ui := Stub.ask "Computer Science" "What skills should I learn?" in
  let out :=
    main Stub.repr_messages Stub.client (Stub.replies "Learn Python.") ui
      Stub.world_with_key in
  wf Stub.world_with_key
  /\ out.1 = Ok tt.
Proof.
  intros ui out.
  assert (Hwf : wf Stub.world_with_key) by (split; exact I).
  split; [exact Hwf|].
  apply (presentation_loop_interaction Stub.repr_messages Stub.client
           (Stub.replies "Learn Python.") ui Stub.world_with_key "k"
           {| model := "gemini-1.5-flash"; google_api_key := "k" |}
           eq_refl eq_refl Hwf).
Defined.

(** The states of the program's own making: the empty one is, and a run
    of [main] from one ends in one. *)
Lemma main_wf repr_messages CG gemini ui w :
  wf w -> wf (main repr_messages CG gemini ui w).2.
Proof.
  revert w.
  apply (keeps_main (fun w w' => wf w -> wf w')) with (sid := "default");
    try reflexivity; auto.
  - intros w [Hm Hd]. split.
    + rewrite (get_session_history_outside (eq "default") _ eq_refl w "messages");
        [exact Hm|discriminate].
    + destruct (get_session_history_lookup "default" w Hd) as (_ & H & _).
      unfold history_ok. now rewrite H.
  - intros new w [Hm Hd]. split.
    + rewrite (add_messages_outside (eq "default") _ new eq_refl w "messages");
        [exact Hm|discriminate].
    + unfold history_ok, add_messages in *.
      destruct (session_state w !! "default") as [[l|l]|] eqn:E;
        cbn [snd session_state set_session_state];
        [contradiction|now rewrite lookup_insert_eq|now rewrite E].
  - intros w [Hm Hd]. split.
    + rewrite init_messages_lookup. now destruct (session_state w !! "messages").
    + unfold history_ok.
      rewrite (init_messages_outside (eq "messages") eq_refl w "default");
        [exact Hd|discriminate].
  - intros t w [Hm Hd]. split.
    + unfold messages_append.
      destruct (session_state w !! "messages") as [[l|l]|] eqn:E;
        cbn [snd session_state set_session_state];
        [now rewrite lookup_insert_eq|contradiction|now rewrite E].
    + unfold history_ok.
      rewrite (messages_append_outside (eq "messages") t eq_refl w "default");
        [exact Hd|discriminate].
Qed.

(** ** Files *)

Lemma blind_bind {A B} (m : M A) (k : A -> M B) :
  blind m -> (forall a, (exists w w', m w = (Ok a, w')) -> blind (k a)) ->
  blind (bind m k).
Proof.
  intros Hm Hk f w. unfold bind. rewrite Hm.
  destruct (m w) as [[a|e] w'] eqn:E; cbn [fst snd]; [|reflexivity].
  apply Hk. now exists w, w'.
Qed.

Lemma blind_try_except {A} (m : M A) (h : exn -> M A) :
  blind m -> (forall e, blind (h e)) -> blind (try_except m h).
Proof.
  intros Hm Hh f w. unfold try_except. rewrite Hm.
  destruct (m w) as [[a|e] w']; cbn [fst snd]; [reflexivity|apply Hh].
Qed.

Lemma blind_get_session_history sid : blind (get_session_history sid).
Proof.
  intros f w. unfold get_session_history. cbn [session_state set_session_state set_files].
  now destruct (session_state w !! sid).
Qed.

Lemma blind_add_messages sid new : blind (add_messages sid new).
Proof.
  intros f w. unfold add_messages. cbn [session_state set_files].
  now destruct (session_state w !! sid) as [[l|l]|].
Qed.

Lemma blind_init_messages : blind init_messages.
Proof.
  intros f w. unfold init_messages. cbn [session_state set_files].
  now destruct (session_state w !! "messages").
Qed.

Lemma blind_messages_append t : blind (messages_append t).
Proof.
  intros f w. unfold messages_append. cbn [session_state set_files].
  now destruct (session_state w !! "messages") as [[l|l]|].
Qed.

Lemma blind_session_messages : blind session_messages.
Proof.
  intros f w. unfold session_messages. cbn [session_state set_files].
  now destruct (session_state w !! "messages") as [[l|l]|].
Qed.

Lemma blind_main repr_messages CG gemini ui : blind (main repr_messages CG gemini ui).
Proof.
  apply (closed_main (fun A m => blind m)) with (sid := "default");
    auto using @blind_bind, @blind_try_except, blind_get_session_history,
      blind_add_messages, blind_init_messages, blind_messages_append,
      blind_session_messages;
    intros; intros f w; reflexivity.
Qed.

Lemma set_files_same w : set_files (files w) w = w.
Proof. now destruct w. Qed.

Lemma blind_files {A} (m : M A) w : blind m -> files (m w).2 = files w.
Proof.
  intros H. specialize (H (files w) w). rewrite set_files_same in H.
  destruct (m w) as [r w']. cbn [fst snd] in *.
  injection H as H. rewrite H. reflexivity.
Qed.

Lemma load_dotenv_files w : files (load_dotenv w).2 = files w.
Proof. unfold load_dotenv. now destruct (files w !! ".env"). Qed.

Lemma load_dotenv_only_dotenv f w :
  f !! ".env" = files w !! ".env" ->
  load_dotenv (set_files f w) = ((load_dotenv w).1, set_files f (load_dotenv w).2).
Proof.
  intros H. unfold load_dotenv. cbn [files set_files]. rewrite H.
  now destruct (files w !! ".env").
Qed.

(** C8, as the specification has it, does not hold: the script reads the
    file .env.  Here are two worlds that differ in that file only; with
    the file the run gets its credential from it and goes on to draw the
    two input fields, without it the run stops and asks for a key. *)
Lemma script_reads_dotenv_file :
  ~ (forall (ui : Widgets) (f : gmap string (list (string * string))) (w : World),
       log (script Stub.repr_messages Stub.client (Stub.replies "hello") ui
              (set_files f w)).2
       = log (script Stub.repr_messages Stub.client (Stub.replies "hello") ui w).2).
Proof.
  intros H.
  specialize (H (Stub.ask "" "") (files Stub.world_with_dotenv) Stub.empty_world).
  apply (f_equal (fun l => l !! 2)) in H.
  vm_compute in H. discriminate H.
Qed.

(** C8, amended: the script reads one file, .env, through [load_dotenv];
    whatever the other files hold it does the same and leaves them all as
    they are; it writes no file; and a process started after a run starts
    from what one started before the run starts from: nothing the program
    keeps outlives the process. *)
Theorem script_reads_only_dotenv
    (repr_messages : list BaseMessage -> string)
    (CG : string -> string -> result ChatModel)
    (gemini : list Event -> ChatModel -> list BaseMessage -> result string)
    (ui : Widgets) (w : World)
    (f : gmap string (list (string * string))) (env : gmap string string) :
  f !! ".env" = files w !! ".env" ->
  let out := script repr_messages CG gemini ui w in
  files out.2 = files w
  /\ script repr_messages CG gemini ui (set_files f w) = (out.1, set_files f out.2)
  /\ restart env out.2 = restart env w.
Proof.
  intros Hf out.
  assert (Hfiles : files out.2 = files w).
  { subst out. unfold script, bind.
    pose proof (load_dotenv_files w) as Hl.
    destruct (load_dotenv w) as [[b|e] w1]; cbn [snd] in *; [|exact Hl].
    rewrite <- Hl. apply blind_files, blind_main. }
  split; [exact Hfiles|]. split.
  - subst out. unfold script, bind. rewrite (load_dotenv_only_dotenv f w Hf).
    destruct (load_dotenv w) as [[b|e] w1]; cbn [fst snd]; [|reflexivity].
    apply blind_main.
  - unfold restart. now rewrite Hfiles.
Qed.

Lemma script_reads_only_dotenv_witness :
  let f := <["notes.txt" := [("A", "1")]]> (files Stub.world_with_dotenv) in
  f !! ".env" = files Stub.world_with_dotenv !! ".env"
  /\ files (script Stub.repr_messages Stub.client (Stub.replies "hello")
              (Stub.ask "Biology" "What next?") Stub.world_with_dotenv).2
     = files Stub.world_with_dotenv.
Proof.
  intros f.
  assert (Hf : f !! ".env" = files Stub.world_with_dotenv !! ".env") by reflexivity.
  split; [exact Hf|].
  apply (script_reads_only_dotenv Stub.repr_messages Stub.client (Stub.replies "hello")
           (Stub.ask "Biology" "What next?") Stub.world_with_dotenv f ∅ Hf).
Defined.

(** * More of the program *)

(** ** A session id that is not a history *)

Lemma chatbot_response_not_history repr_messages gemini user_input major r data o w l :
  session_history_factory r = get_session_history ->
  session_state w !! default "default" o = Some (TurnList l) ->
  chatbot_response repr_messages gemini user_input major r data o w
  = (Raise (Exception "AttributeError" "'list' object has no attribute 'messages'"), w).
Proof.
  intros Hf Hl. unfold chatbot_response. cbv zeta.
  unfold history_invoke, bind, lift. rewrite Hf.
  unfold get_session_history. rewrite Hl. reflexivity.
Qed.

Lemma shown_app a b : shown (a ++ b) = shown a ++ shown b.
Proof. unfold shown. apply flat_map_app. Qed.

Lemma shown_display l :
  shown (map (fun t => st_chat_message (role t) (content t)) l) = l.
Proof.
  induction l as [|[r c] l IH]; [reflexivity|].
  cbn [map]. change (shown (?x :: ?y)) with (shown [x] ++ shown y).
  rewrite IH. reflexivity.
Qed.

Lemma requests_display l :
  requests (map (fun t => st_chat_message (role t) (content t)) l) = [].
Proof. induction l as [|t l IH]; [reflexivity|exact IH]. Qed.

Lemma obtain_api_key_shown ui w :
  exists evs,
    log (obtain_api_key ui w).2 = log w ++ evs
    /\ requests evs = [] /\ shown evs = [].
Proof.
  destruct w as [f en ss lg].
  cbv beta iota zeta delta
    [obtain_api_key credential bind os_getenv text_input tell ret emit
     files environ session_state log snd].
  destruct (truthy_opt (en !! "GOOGLE_API_KEY")).
  - exists []. now rewrite app_nil_r.
  - destruct (truthy (api_key_field ui)); cbn [snd log];
      eexists; rewrite <- !app_assoc; (split; [reflexivity|]); split; reflexivity.
Qed.

Lemma keyed_log ui w :
  exists evs,
    log (keyed ui w) = log w ++ evs /\ requests evs = [] /\ shown evs = [].
Proof.
  unfold keyed. set (w0 := emit _ (emit _ w)).
  destruct (obtain_api_key_shown ui (init_messages w0).2) as (evs & -> & Hr & Hs).
  destruct (init_messages_same w0) as (_ & _ & ->).
  subst w0. cbn [log emit]. eexists. rewrite <- !app_assoc.
  split; [reflexivity|].
  rewrite !requests_app, !shown_app, Hr, Hs. split; reflexivity.
Qed.

(** What a run has logged when line 121 is reached: no request, and as
    chat messages the stored transcript, in order. *)
Lemma ready_shown ui w :
  exists evs,
    log (ready ui w) = log w ++ evs
    /\ requests evs = [] /\ shown evs = transcript w.
Proof.
  destruct (keyed_log ui w) as (evs & Hl & Hr & Hs).
  destruct (keyed_same ui w) as (_ & _ & _ & Ht & _).
  unfold ready. cbv zeta. rewrite display_run. cbn [snd log emit].
  change (transcript (emit ?a (emit ?b (keyed ui w)))) with (transcript (keyed ui w)).
  rewrite Ht, Hl. eexists. rewrite <- !app_assoc. split; [reflexivity|].
  rewrite !requests_app, !shown_app, Hr, Hs, requests_display, shown_display.
  split; reflexivity.
Qed.

(** ** Every way a run of [main] can go *)

Lemma after_user_turn_default ui w (k : string) :
  wf w -> k <> "messages" ->
  session_state (after_user_turn (question_field ui) (ready ui w)) !! k
  = session_state w !! k.
Proof.
  intros [Hm _] Hk.
  rewrite (after_user_turn_state _ _ _ (ready_messages ui w Hm)).
  cbn [session_state set_session_state emit].
  rewrite lookup_insert_ne by congruence. now apply ready_default.
Qed.

(** A run that has its credential and its client, from a state of the
    program's making. *)
Lemma interaction_outcome repr_messages CG gemini ui w api_key llm :
  credential ui w = Some api_key ->
  CG "gemini-1.5-flash" api_key = Ok llm ->
  wf w ->
  let out := main repr_messages CG gemini ui w in
  let q := question_field ui in
  out.1 = Ok tt
  /\ exists evs,
       log out.2 = log w ++ evs
       /\ shown evs = transcript out.2
       /\ ((transcript out.2 = transcript w
            /\ session_state out.2 !! "default" = session_state w !! "default"
            /\ requests evs = []
            /\ (truthy q && truthy (major_field ui))%bool = false)
           \/ (exists p a,
                 transcript out.2 = transcript w ++ [user_turn q; assistant_turn a]
                 /\ history_of "default" out.2
                    = history_of "default" w ++ [HumanMessage q; AIMessage a]
                 /\ requests evs = [p])
           \/ (exists p,
                 transcript out.2 = transcript w ++ [user_turn q]
                 /\ history_of "default" out.2 = history_of "default" w
                 /\ requests evs = [p])).
Proof.
  intros Hc Hg Hwf out q. subst out q.
  pose proof Hwf as [Hm Hd].
  rewrite (main_interaction _ _ _ _ _ _ _ Hc Hg Hm).
  destruct (ready_same ui w) as (_ & _ & _ & Htr & _).
  destruct (ready_shown ui w) as (evs & Hevs & Hnone & Hshown).
  destruct (truthy (question_field ui) && truthy (major_field ui))%bool eqn:Eb.
  2:{ rewrite handle_input_idle by exact Eb. cbn [fst snd].
      split; [reflexivity|]. exists evs.
      split; [exact Hevs|]. split; [now rewrite Htr|].
      left. repeat split; auto. now apply ready_default. }
  apply andb_prop in Eb as [Hq Hmaj].
  destruct (handle_input_run repr_messages gemini (question_field ui) (major_field ui)
              (main_runnable llm) load_career_data (ready ui w) (transcript w)
              eq_refl Hq Hmaj (ready_messages ui w Hm)) as (Ht & ->).
  pose proof (chatbot_response_run repr_messages gemini (question_field ui)
                (major_field ui) llm load_career_data None
                (after_user_turn (question_field ui) (ready ui w))
                (wf_ready_default ui w _ Hwf)) as Hrun.
  cbv zeta in Hrun. cbn [default] in Hrun.
  set (w1 := after_user_turn (question_field ui) (ready ui w)) in *.
  set (prompt := assembled_prompt _ _ _ _ _) in *.
  assert (Hpast : history_of "default" w1 = history_of "default" w).
  { unfold history_of. subst w1. now rewrite after_user_turn_default. }
  destruct (get_session_history_lookup "default" w1 (wf_ready_default ui w _ Hwf))
    as (_ & Hs1 & Hl1).
  assert (Hlog1 : log (get_session_history "default" w1).2
                  = log w ++ evs ++ [st_chat_message "user" (question_field ui)]).
  { rewrite Hl1. subst w1.
    rewrite (after_user_turn_state _ _ _ (ready_messages ui w Hm)).
    cbn [log set_session_state emit]. now rewrite Hevs, <- app_assoc. }
  rewrite Hrun in *.
  destruct (gemini (log w1) llm prompt) as [answer|e]; cbn [fst snd] in *.
  - split; [reflexivity|].
    match goal with |- exists evs, log ?F = _ /\ _ => set (final := F) end.
    assert (Hlf : log final
                  = log w ++ evs ++ [st_chat_message "user" (question_field ui);
                                     llm_request (google_api_key llm) prompt;
                                     st_chat_message "assistant" answer]).
    { subst final. cbn [log set_session_state emit]. rewrite Hlog1.
      now rewrite <- !app_assoc. }
    assert (Htf : transcript final
                  = transcript w ++ [user_turn (question_field ui);
                                     assistant_turn answer]).
    { subst final. unfold transcript at 1. cbn [session_state set_session_state].
      now rewrite lookup_insert_eq. }
    assert (Hhf : history_of "default" final
                  = history_of "default" w
                    ++ [HumanMessage (question_field ui); AIMessage answer]).
    { subst final. unfold history_of at 1. cbn [session_state set_session_state emit].
      rewrite lookup_insert_ne by discriminate.
      now rewrite lookup_insert_eq, Hpast. }
    clearbody final. eexists. split; [exact Hlf|].
    rewrite Htf. split.
    { rewrite shown_app, Hshown. reflexivity. }
    right. left. exists prompt, answer.
    split; [reflexivity|]. split; [exact Hhf|].
    rewrite requests_app, Hnone. reflexivity.
  - split; [reflexivity|].
    match goal with |- exists evs, log ?F = _ /\ _ => set (final := F) end.
    assert (Hlf : log final
                  = log w ++ evs ++ [st_chat_message "user" (question_field ui);
                                     llm_request (google_api_key llm) prompt;
                                     st_error ("Error generating response: " +:+ str e)]).
    { subst final. cbn [log emit]. rewrite Hlog1. now rewrite <- !app_assoc. }
    assert (Htf : transcript final = transcript w ++ [user_turn (question_field ui)]).
    { subst final. exact Ht. }
    assert (Hhf : history_of "default" final = history_of "default" w).
    { subst final. unfold history_of at 1. cbn [session_state emit].
      now rewrite Hs1, Hpast. }
    clearbody final. eexists. split; [exact Hlf|].
    rewrite Htf. split.
    { rewrite shown_app, Hshown. reflexivity. }
    right. right. exists prompt.
    split; [reflexivity|]. split; [exact Hhf|].
    rewrite requests_app, Hnone. reflexivity.
Qed.

Lemma script_main repr_messages CG gemini ui w :
  script repr_messages CG gemini ui w
  = main repr_messages CG gemini ui (load_dotenv w).2.
Proof. unfold script, bind, load_dotenv. now destruct (files w !! ".env"). Qed.

Lemma load_dotenv_same w :
  session_state (load_dotenv w).2 = session_state w
  /\ log (load_dotenv w).2 = log w
  /\ files (load_dotenv w).2 = files w.
Proof. unfold load_dotenv. now destruct (files w !! ".env"). Qed.

Lemma load_dotenv_wf w : wf w -> wf (load_dotenv w).2.
Proof.
  destruct (load_dotenv_same w) as (Hs & _). unfold wf, history_ok. now rewrite Hs.
Qed.

(** From a state of the program's making a run ends normally, in one of
    three ways: nothing happened to the transcript and the history; an
    exchange was added to both; or the question was added to the
    transcript alone. *)
Lemma main_outcome repr_messages CG gemini ui w :
  wf w ->
  let out := main repr_messages CG gemini ui w in
  let q := question_field ui in
  out.1 = Ok tt
  /\ exists evs,
       log out.2 = log w ++ evs
       /\ ((transcript out.2 = transcript w
            /\ session_state out.2 !! "default" = session_state w !! "default"
            /\ requests evs = [])
           \/ (exists p a,
                 transcript out.2 = transcript w ++ [user_turn q; assistant_turn a]
                 /\ history_of "default" out.2
                    = history_of "default" w ++ [HumanMessage q; AIMessage a]
                 /\ requests evs = [p])
           \/ (exists p,
                 transcript out.2 = transcript w ++ [user_turn q]
                 /\ history_of "default" out.2 = history_of "default" w
                 /\ requests evs = [p])).
Proof.
  intros Hwf out q. subst out q.
  destruct (credential ui w) as [api_key|] eqn:Hc.
  - destruct (CG "gemini-1.5-flash" api_key) as [llm|e] eqn:Hg.
    + destruct (interaction_outcome repr_messages CG gemini ui w api_key llm Hc Hg Hwf)
        as (H1 & evs & Hl & _ & [(Ht & Hd & Hr & _)|[H|H]]).
      * split; [exact H1|]. exists evs. split; [exact Hl|]. left. now repeat split.
      * split; [exact H1|]. exists evs. split; [exact Hl|]. right. now left.
      * split; [exact H1|]. exists evs. split; [exact Hl|]. right. now right.
    + rewrite main_run, Hc, Hg. cbn [fst snd].
      destruct (keyed_same ui w) as (_ & _ & _ & Ht & _ & Hk).
      destruct (keyed_log ui w) as (evs & Hl & Hr & _).
      split; [reflexivity|].
      exists (evs ++ [st_error ("Failed to initialize Gemini model: " +:+ str e)]).
      cbn [log emit]. rewrite Hl, <- app_assoc. split; [reflexivity|].
      left. split; [exact Ht|]. split; [now apply Hk|].
      now rewrite requests_app, Hr.
  - rewrite main_run, Hc. cbn [fst snd].
    destruct (keyed_same ui w) as (_ & _ & _ & Ht & _ & Hk).
    destruct (keyed_log ui w) as (evs & Hl & Hr & _).
    split; [reflexivity|]. exists evs. split; [exact Hl|].
    left. split; [exact Ht|]. split; [now apply Hk|exact Hr].
Qed.

Lemma answered_user_last pending l question :
  answered pending (l ++ [user_turn question]) = answered pending l.
Proof.
  revert pending. induction l as [|t l IH]; intros pending; [reflexivity|].
  cbn [app answered].
  destruct (String.eqb (role t) "user"); [apply IH|].
  destruct (String.eqb (role t) "assistant"); [|apply IH].
  destruct pending; now rewrite IH.
Qed.

Lemma answered_exchange_last pending l question answer :
  answered pending (l ++ [user_turn question; assistant_turn answer])
  = answered pending l ++ [HumanMessage question; AIMessage answer].
Proof.
  revert pending. induction l as [|t l IH]; intros pending; [reflexivity|].
  cbn [app answered].
  destruct (String.eqb (role t) "user"); [apply IH|].
  destruct (String.eqb (role t) "assistant"); [|apply IH].
  destruct pending; now rewrite IH.
Qed.

Lemma script_in_step repr_messages CG gemini ui w :
  in_step w -> in_step (script repr_messages CG gemini ui w).2.
Proof.
  intros [Hwf Hh]. rewrite script_main.
  destruct (load_dotenv_same w) as (Hs & _).
  assert (Hwf' : wf (load_dotenv w).2) by now apply load_dotenv_wf.
  assert (Ht : transcript (load_dotenv w).2 = transcript w)
    by (unfold transcript; now rewrite Hs).
  assert (Hh' : history_of "default" (load_dotenv w).2 = history_of "default" w)
    by (unfold history_of; now rewrite Hs).
  split; [now apply main_wf|].
  destruct (main_outcome repr_messages CG gemini ui _ Hwf')
    as (_ & evs & _ & [(H1 & H2 & _)|[(p & a & H1 & H2 & _)|(p & H1 & H2 & _)]]).
  - rewrite H1, Ht, <- Hh, <- Hh'. unfold history_of. now rewrite H2.
  - rewrite H1, H2, answered_exchange_last, Ht, Hh', Hh. reflexivity.
  - rewrite H1, H2, answered_user_last, Ht, Hh', Hh. reflexivity.
Qed.

Lemma run_all_snoc repr_messages CG gemini uis ui w :
  run_all repr_messages CG gemini (uis ++ [ui]) w
  = (script repr_messages CG gemini ui (run_all repr_messages CG gemini uis w)).2.
Proof. unfold run_all. now rewrite fold_left_app. Qed.

Lemma run_all_in_step repr_messages CG gemini uis w :
  in_step w -> in_step (run_all repr_messages CG gemini uis w).
Proof.
  revert w. induction uis as [|ui uis IH]; intros w H; [exact H|].
  cbn [run_all fold_left]. apply IH. now apply script_in_step.
Qed.

(** X1: from a state of the program's making, no run of the script lets
    an exception out, whatever the user typed, whatever the client
    constructor and the model do: after any number of runs the next run
    ends normally, and in a state of the same kind. *)
Theorem script_never_raises
    (repr_messages : list BaseMessage -> string)
    (CG : string -> string -> result ChatModel)
    (gemini : list Event -> ChatModel -> list BaseMessage -> result string)
    (uis : list Widgets) (ui : Widgets) (w : World) :
  wf w ->
  (script repr_messages CG gemini ui (run_all repr_messages CG gemini uis w)).1 = Ok tt
  /\ wf (script repr_messages CG gemini ui (run_all repr_messages CG gemini uis w)).2.
Proof.
  intros Hwf.
  assert (Hall : forall uis w, wf w -> wf (run_all repr_messages CG gemini uis w)).
  { clear. intros uis. induction uis as [|u uis IH]; intros w H; [exact H|].
    cbn [run_all fold_left]. apply IH. rewrite script_main.
    now apply main_wf, load_dotenv_wf. }
  specialize (Hall uis w Hwf). rewrite script_main.
  apply load_dotenv_wf in Hall.
  split; [now apply main_outcome|now apply main_wf].
Qed.

Lemma script_never_raises_witness :
  wf (fresh ∅ ∅)
  /\ (script Stub.repr_messages Stub.client_refuses Stub.unavailable
        (Stub.ask "Art" "What skills?")
        (run_all Stub.repr_messages Stub.client_refuses Stub.unavailable
           [Stub.ask "" ""; Stub.ask "Art" ""] (fresh ∅ ∅))).1 = Ok tt.
Proof.
  assert (H : wf (fresh ∅ ∅)) by (split; exact I).
  split; [exact H|].
  apply (script_never_raises Stub.repr_messages Stub.client_refuses Stub.unavailable
           [Stub.ask "" ""; Stub.ask "Art" ""] (Stub.ask "Art" "What skills?")
           (fresh ∅ ∅) H).
Defined.

(** X2: in a process started with nothing in memory, after any number of
    runs, with any inputs and any behaviour of the client and the model,
    the history kept for the model under "default" is exactly the
    exchanges of the visible transcript that got an answer, in order: a
    question whose call failed is on the screen but not in the model's
    memory. *)
Theorem history_is_answered_transcript
    (repr_messages : list BaseMessage -> string)
    (CG : string -> string -> result ChatModel)
    (gemini : list Event -> ChatModel -> list BaseMessage -> result string)
    (uis : list Widgets)
    (f : gmap string (list (string * string))) (env : gmap string string) :
  history_of "default" (run_all repr_messages CG gemini uis (fresh f env))
  = answered None (transcript (run_all repr_messages CG gemini uis (fresh f env))).
Proof.
  apply (run_all_in_step repr_messages CG gemini uis (fresh f env)).
  split; [split; exact I|reflexivity].
Qed.

(** X3: in a run that has its credential and its client, what is shown
    as chat messages, from top to bottom, is the transcript as the run
    leaves it: the stored turns, then the new question and its answer if
    there are any. *)
Theorem screen_shows_transcript
    (repr_messages : list BaseMessage -> string)
    (CG : string -> string -> result ChatModel)
    (gemini : list Event -> ChatModel -> list BaseMessage -> result string)
    (ui : Widgets) (w : World) (api_key : string) (llm : ChatModel) :
  credential ui w = Some api_key ->
  CG "gemini-1.5-flash" api_key = Ok llm ->
  wf w ->
  exists evs,
    log (main repr_messages CG gemini ui w).2 = log w ++ evs
    /\ shown evs = transcript (main repr_messages CG gemini ui w).2.
Proof.
  intros Hc Hg Hwf.
  destruct (interaction_outcome repr_messages CG gemini ui w api_key llm Hc Hg Hwf)
    as (_ & evs & Hl & Hs & _).
  now exists evs.
Qed.

Lemma screen_shows_transcript_witness :
  let out :=
    main Stub.repr_messages Stub.client (Stub.replies "Learn Python.")
      (Stub.ask "Biology" "What next?") Stub.world_with_key in
  wf Stub.world_with_key
  /\ exists evs, log out.2 = log Stub.world_with_key ++ evs
                 /\ shown evs = transcript out.2.
Proof.
  intros out.
  assert (H : wf Stub.world_with_key) by (split; exact I).
  split; [exact H|].
  apply (screen_shows_transcript Stub.repr_messages Stub.client
           (Stub.replies "Learn Python.") (Stub.ask "Biology" "What next?")
           Stub.world_with_key "k"
           {| model := "gemini-1.5-flash"; google_api_key := "k" |}
           eq_refl eq_refl H).
Defined.

(** X4: when the client constructor raises [e], the run ends normally
    with the message made from [e] as the last thing shown; the input
    fields for the major and the question are not reached, no chat message
    is shown, no request is made and the transcript is as it was. *)
Theorem initialization_failure_reported
    (repr_messages : list BaseMessage -> string)
    (CG : string -> string -> result ChatModel)
    (gemini : list Event -> ChatModel -> list BaseMessage -> result string)
    (ui : Widgets) (w : World) (api_key : string) (e : exn) :
  credential ui w = Some api_key ->
  CG "gemini-1.5-flash" api_key = Raise e ->
  let out := main repr_messages CG gemini ui w in
  out.1 = Ok tt
  /\ transcript out.2 = transcript w
  /\ exists evs,
       log out.2
       = log w ++ evs ++ [st_error ("Failed to initialize Gemini model: " +:+ str e)]
       /\ requests evs = [] /\ shown evs = []
       /\ ~ In (st_text_input "Ask a career-related question:" false) evs.
Proof.
  intros Hc Hg out. subst out. rewrite main_run, Hc, Hg. cbn [fst snd].
  destruct (keyed_same ui w) as (_ & _ & _ & Ht & _).
  split; [reflexivity|]. split; [exact Ht|].
  unfold keyed. set (w0 := emit _ (emit _ w)).
  destruct (obtain_api_key_run ui (init_messages w0).2) as (evs & Hr & _).
  destruct (init_messages_same w0) as (_ & _ & Hl).
  rewrite Hr. cbn [snd log emit]. rewrite Hl. subst w0. cbn [log emit].
  assert (Hin : forall ev, In ev evs ->
            ev = st_error "Gemini API key not found in .env file. Please enter it below."
            \/ ev = st_text_input "Enter your Gemini API key:" true
            \/ ev = st_error "Gemini API key is required to proceed.").
  { revert Hr. clear. destruct (init_messages _).2 as [f en ss lg].
    cbv beta iota zeta delta
      [obtain_api_key credential bind os_getenv text_input tell ret emit
       files environ session_state log].
    destruct (truthy_opt (en !! "GOOGLE_API_KEY")).
    - intros [= H] ev Hev. apply (f_equal length) in H.
      rewrite length_app in H. destruct evs; [destruct Hev|simpl in H; lia].
    - destruct (truthy (api_key_field ui)); intros [= H] ev Hev;
        rewrite <- !app_assoc in H; apply app_inv_head in H; subst evs;
        simpl in Hev; intuition. }
  exists ([st_title "AI Career Guidance Chatbot for Undergraduates";
           st_write "Enter your academic major and ask for career advice!"] ++ evs).
  split; [now rewrite <- !app_assoc|].
  assert (Hno : requests evs = [] /\ shown evs = []).
  { clear - Hin. induction evs as [|ev evs IH]; [now split|].
    destruct IH as [IH1 IH2]; [intros ev' H; apply Hin; now right|].
    destruct (Hin ev (or_introl eq_refl)) as [-> | [-> | ->]]; now split. }
  destruct Hno as [Hq Hs].
  split; [now rewrite requests_app, Hq|]. split; [now rewrite shown_app, Hs|].
  intros H. apply in_app_or in H. destruct H as [H|H].
  - simpl in H. destruct H as [H|[H|[]]]; discriminate.
  - destruct (Hin _ H) as [H'|[H'|H']]; discriminate.
Qed.

Lemma initialization_failure_reported_witness :
  let out :=
    main Stub.repr_messages Stub.client_refuses (Stub.replies "hello")
      (Stub.ask "Biology" "What next?") Stub.world_with_key in
  Stub.client_refuses "gemini-1.5-flash" "k"
  = Raise (Exception "ValidationError" "invalid API key")
  /\ out.1 = Ok tt /\ transcript out.2 = [].
Proof.
  intros out. split; [reflexivity|].
  destruct (initialization_failure_reported Stub.repr_messages Stub.client_refuses
              (Stub.replies "hello") (Stub.ask "Biology" "What next?")
              Stub.world_with_key "k" (Exception "ValidationError" "invalid API key")
              eq_refl eq_refl) as (H1 & H2 & _).
  split; [exact H1|exact H2].
Defined.

(** ** Nothing is taken back *)

Lemma extends_refl v : extends v v.
Proof. destruct v; simpl; reflexivity. Qed.

Lemma extends_trans a b c : extends a b -> extends b c -> extends a c.
Proof.
  destruct a as [la|la], b as [lb|lb], c as [lc|lc]; simpl; try contradiction;
    intros H1 H2; now transitivity lb.
Qed.

Lemma grows_refl w : grows w w.
Proof.
  split; [|reflexivity]. intros k v H. exists v. split; [exact H|apply extends_refl].
Qed.

Lemma grows_trans a b c : grows a b -> grows b c -> grows a c.
Proof.
  intros [H1 L1] [H2 L2]. split; [|now transitivity (log b)].
  intros k v Hv. destruct (H1 k v Hv) as (v' & Hv' & E1).
  destruct (H2 k v' Hv') as (v'' & Hv'' & E2).
  exists v''. split; [exact Hv''|]. now apply (extends_trans v v' v'').
Qed.

Lemma grows_emit w ev : grows w (emit ev w).
Proof.
  split; [|now apply prefix_app_r].
  intros k v H. exists v. split; [exact H|apply extends_refl].
Qed.

(** Putting under a key a value that extends the one there, if any. *)
Lemma grows_insert w (k : string) v' :
  (forall v, session_state w !! k = Some v -> extends v v') ->
  grows w (set_session_state (<[k := v']> (session_state w)) w).
Proof.
  intros H. split; [|reflexivity].
  intros k0 v Hv. cbn [session_state set_session_state].
  destruct (decide (k = k0)) as [<-|Hne].
  - exists v'. rewrite lookup_insert_eq. split; [reflexivity|now apply H].
  - exists v. rewrite lookup_insert_ne by exact Hne.
    split; [exact Hv|apply extends_refl].
Qed.

Lemma get_session_history_grows sid : keeps grows (get_session_history sid).
Proof.
  intros w. unfold get_session_history.
  destruct (session_state w !! sid) eqn:E; cbn [snd]; [apply grows_refl|].
  apply grows_insert. intros v Hv. rewrite E in Hv. discriminate.
Qed.

Lemma add_messages_grows sid new : keeps grows (add_messages sid new).
Proof.
  intros w. unfold add_messages.
  destruct (session_state w !! sid) as [[l|l]|] eqn:E; cbn [snd];
    try apply grows_refl.
  apply grows_insert. intros v Hv. rewrite E in Hv. injection Hv as <-.
  now apply prefix_app_r.
Qed.

Lemma init_messages_grows : keeps grows init_messages.
Proof.
  intros w. unfold init_messages.
  destruct (session_state w !! "messages") eqn:E; cbn [snd]; [apply grows_refl|].
  apply grows_insert. intros v Hv. rewrite E in Hv. discriminate.
Qed.

Lemma messages_append_grows t : keeps grows (messages_append t).
Proof.
  intros w. unfold messages_append.
  destruct (session_state w !! "messages") as [[l|l]|] eqn:E; cbn [snd];
    try apply grows_refl.
  apply grows_insert. intros v Hv. rewrite E in Hv. injection Hv as <-.
  now apply prefix_app_r.
Qed.

Lemma script_grows repr_messages CG gemini ui w :
  grows w (script repr_messages CG gemini ui w).2.
Proof.
  rewrite script_main. apply (grows_trans w (load_dotenv w).2).
  - destruct (load_dotenv_same w) as (Hs & Hl & _). split; [|now rewrite Hl].
    intros k v H. exists v. rewrite Hs. split; [exact H|apply extends_refl].
  - apply (keeps_main grows grows_refl grows_trans grows_emit "default");
      auto using get_session_history_grows, add_messages_grows,
        init_messages_grows, messages_append_grows.
Qed.

(** X5: whatever the state, the inputs, the client and the model, runs
    of the script never remove or rewrite anything: every key of
    [st.session_state] stays, the list under it keeps what it held as a
    prefix, so do the transcript and the history of every session id, and
    so does the log of what was shown and requested. *)
Theorem runs_only_append
    (repr_messages : list BaseMessage -> string)
    (CG : string -> string -> result ChatModel)
    (gemini : list Event -> ChatModel -> list BaseMessage -> result string)
    (uis : list Widgets) (w : World) (sid : string) :
  let w' := run_all repr_messages CG gemini uis w in
  (forall k v, session_state w !! k = Some v ->
               exists v', session_state w' !! k = Some v' /\ extends v v')
  /\ transcript w `prefix_of` transcript w'
  /\ history_of sid w `prefix_of` history_of sid w'
  /\ log w `prefix_of` log w'.
Proof.
  intros w'.
  assert (G : grows w w').
  { subst w'. revert w. induction uis as [|ui uis IH]; intros w; [apply grows_refl|].
    cbn [run_all fold_left]. eapply grows_trans; [apply script_grows|apply IH]. }
  destruct G as [Gs Gl]. split; [exact Gs|]. split; [|split; [|exact Gl]].
  - unfold transcript.
    destruct (session_state w !! "messages") as [[l|l]|] eqn:E;
      try apply prefix_nil.
    destruct (Gs _ _ E) as ([l'|l'] & -> & Hx); [exact Hx|destruct Hx].
  - unfold history_of.
    destruct (session_state w !! sid) as [[l|l]|] eqn:E; try apply prefix_nil.
    destruct (Gs _ _ E) as ([l'|l'] & -> & Hx); [destruct Hx|exact Hx].
Qed.

(** ** One request at most *)

(** X6: a run of the script makes at most one request to the model,
    whatever the state, the inputs, the client and the model: a failed
    call is not tried again. *)
Theorem at_most_one_request_per_run
    (repr_messages : list BaseMessage -> string)
    (CG : string -> string -> result ChatModel)
    (gemini : list Event -> ChatModel -> list BaseMessage -> result string)
    (ui : Widgets) (w : World) :
  exists ps,
    requests (log (script repr_messages CG gemini ui w).2) = requests (log w) ++ ps
    /\ length ps <= 1.
Proof.
  rewrite script_main.
  destruct (load_dotenv_same w) as (_ & Hlog & _). rewrite <- Hlog.
  set (w0 := (load_dotenv w).2). clearbody w0. clear Hlog w.
  destruct (keyed_same ui w0) as (_ & _ & _ & _ & Hk & _).
  assert (Hzero : forall x, requests (log x) = requests (log w0) ->
            exists ps, requests (log x) = requests (log w0) ++ ps /\ length ps <= 1).
  { intros x ->. exists []. rewrite app_nil_r. split; [reflexivity|simpl; lia]. }
  rewrite main_run.
  destruct (credential ui w0) as [api_key|]; [|now apply Hzero].
  destruct (CG "gemini-1.5-flash" api_key) as [llm|e].
  2:{ apply Hzero. cbn [snd log emit]. rewrite requests_app, Hk. cbn.
      now rewrite app_nil_r. }
  assert (Hm : match session_state w0 !! "messages" with
               | Some (ChatMessageHistory _) => False
               | _ => True
               end
               -> exists ps,
                    requests
                      (log (handle_input repr_messages gemini (question_field ui)
                              (major_field ui) (main_runnable llm) load_career_data
                              (ready ui w0)).2)
                    = requests (log w0) ++ ps /\ length ps <= 1).
  { intros Hm.
    destruct (ready_shown ui w0) as (evs & Hevs & Hnone & _).
    assert (Hready : requests (log (ready ui w0)) = requests (log w0))
      by (now rewrite Hevs, requests_app, Hnone, app_nil_r).
    destruct (truthy (question_field ui) && truthy (major_field ui))%bool eqn:Eb.
    2:{ rewrite handle_input_idle by exact Eb. now apply Hzero. }
    apply andb_prop in Eb as [Hq Hmaj].
    destruct (handle_input_run repr_messages gemini (question_field ui)
                (major_field ui) (main_runnable llm) load_career_data (ready ui w0)
                (transcript w0) eq_refl Hq Hmaj (ready_messages ui w0 Hm)) as (_ & ->).
    set (w1 := after_user_turn (question_field ui) (ready ui w0)).
    assert (Hw1 : requests (log w1) = requests (log w0)).
    { subst w1. rewrite (after_user_turn_state _ _ _ (ready_messages ui w0 Hm)).
      cbn [log set_session_state emit]. rewrite requests_app, Hready. cbn.
      now rewrite app_nil_r. }
    destruct (session_state w1 !! "default") as [[l|l]|] eqn:Ed.
    - rewrite (chatbot_response_not_history repr_messages gemini _ _ (main_runnable llm)
                 _ None w1 l eq_refl Ed).
      cbn [fst snd]. apply Hzero. cbn [log emit]. rewrite requests_app, Hw1. cbn.
      now rewrite app_nil_r.
    - assert (Hok : history_ok "default" w1) by (unfold history_ok; now rewrite Ed).
      destruct (get_session_history_lookup "default" w1 Hok) as (_ & _ & Hl1).
      rewrite (chatbot_response_run _ _ _ _ _ _ None w1 Hok). cbn [default].
      set (prompt := assembled_prompt _ _ _ _ _).
      exists [prompt]. split; [|simpl; lia].
      destruct (gemini (log w1) llm prompt); cbn [fst snd log set_session_state emit];
        rewrite !requests_app, Hl1, Hw1; cbn; now rewrite app_nil_r.
    - assert (Hok : history_ok "default" w1) by (unfold history_ok; now rewrite Ed).
      destruct (get_session_history_lookup "default" w1 Hok) as (_ & _ & Hl1).
      rewrite (chatbot_response_run _ _ _ _ _ _ None w1 Hok). cbn [default].
      set (prompt := assembled_prompt _ _ _ _ _).
      exists [prompt]. split; [|simpl; lia].
      destruct (gemini (log w1) llm prompt); cbn [fst snd log set_session_state emit];
        rewrite !requests_app, Hl1, Hw1; cbn; now rewrite app_nil_r. }
  destruct (session_state w0 !! "messages") as [[l|l]|].
  - now apply Hm.
  - apply Hzero. cbn [snd log emit]. rewrite !requests_app, Hk. cbn.
    now rewrite !app_nil_r.
  - now apply Hm.
Qed.

(** ** Where the credential comes from *)

Lemma truthy_opt_Some k : truthy_opt (Some k) = truthy k.
Proof. reflexivity. Qed.

(** X7: the credential lines 86-92 end up with, after [load_dotenv()]:
    a non-empty GOOGLE_API_KEY of the environment wins; a variable set
    but empty hides the file .env, and the key field decides; when the
    variable is not set, the last GOOGLE_API_KEY line of .env is used if
    it is not empty; otherwise the key field decides, and an empty field
    gives no credential.  The key field is drawn in the last two cases
    only. *)
Theorem credential_precedence (ui : Widgets) (w : World) :
  (obtain_api_key ui (load_dotenv w).2).1 = Ok (found_credential ui w)
  /\ (In (st_text_input "Enter your Gemini API key:" true)
        (log (obtain_api_key ui (load_dotenv w).2).2)
      <-> In (st_text_input "Enter your Gemini API key:" true) (log w)
          \/ truthy_opt (environ (load_dotenv w).2 !! "GOOGLE_API_KEY") = false).
Proof.
  assert (Henv : environ (load_dotenv w).2 !! "GOOGLE_API_KEY"
                 = match environ w !! "GOOGLE_API_KEY" with
                   | Some k => Some k
                   | None =>
                       match files w !! ".env" with
                       | Some lines => dotenv_values lines !! "GOOGLE_API_KEY"
                       | None => None
                       end
                   end).
  { unfold load_dotenv. destruct (files w !! ".env") as [lines|]; cbn [snd].
    - cbn [environ set_environ].
      destruct (environ w !! "GOOGLE_API_KEY") eqn:E.
      + now apply lookup_union_Some_l.
      + now apply lookup_union_r.
    - now destruct (environ w !! "GOOGLE_API_KEY"). }
  destruct (load_dotenv_same w) as (_ & Hlog & _).
  split.
  - rewrite obtain_api_key_fst. unfold credential, found_credential, from_field.
    rewrite Henv.
    destruct (environ w !! "GOOGLE_API_KEY") as [k|].
    + rewrite truthy_opt_Some. now destruct (truthy k).
    + destruct (files w !! ".env") as [lines|]; [|reflexivity].
      destruct (dotenv_values lines !! "GOOGLE_API_KEY") as [k|]; [|reflexivity].
      rewrite truthy_opt_Some. now destruct (truthy k).
  - rewrite <- Hlog. set (w0 := (load_dotenv w).2). clearbody w0.
    destruct w0 as [f en ss lg].
    cbv beta iota zeta delta
      [obtain_api_key bind os_getenv text_input tell ret emit
       files environ session_state log snd].
    destruct (truthy_opt (en !! "GOOGLE_API_KEY")).
    + cbn [log]. split; [now left|]. intros [H|H]; [exact H|discriminate].
    + split; [now right|]. intros _.
      destruct (truthy (api_key_field ui)); cbn [log];
        rewrite ?in_app_iff; simpl; tauto.
Qed.

Lemma credential_precedence_example :
  dotenv_values [("GOOGLE_API_KEY", "old"); ("OTHER", "x"); ("GOOGLE_API_KEY", "new")]
    !! "GOOGLE_API_KEY" = Some "new".
Proof. reflexivity. Qed.

(** ** What a call of [chatbot_response] leaves behind *)

(** X8: when a call of [chatbot_response] under a session id returns an
    answer, the history of that session gets the question as typed (the
    major is not kept) and the answer, after what it held; and the request
    of the next call under the same id carries these turns, in order,
    between the system message and the new human message, the system
    message quoting them too. *)
Theorem conversation_memory
    (repr_messages : list BaseMessage -> string)
    (gemini : list Event -> ChatModel -> list BaseMessage -> result string)
    (llm : ChatModel) (data : list (string * KnowledgeEntry))
    (sid : string) (w : World) (q1 m1 a1 q2 m2 : string) :
  history_ok sid w ->
  let first :=
    chatbot_response repr_messages gemini q1 m1 (main_runnable llm) data (Some sid) w in
  let second :=
    chatbot_response repr_messages gemini q2 m2 (main_runnable llm) data (Some sid)
      first.2 in
  first.1 = Ok a1 ->
  history_of sid first.2 = history_of sid w ++ [HumanMessage q1; AIMessage a1]
  /\ exists sys,
       requests (log second.2)
       = requests (log first.2)
         ++ [SystemMessage sys
               :: (history_of sid w ++ [HumanMessage q1; AIMessage a1])
               ++ [HumanMessage ("Major: " +:+ m2 +:+ nl +:+ "Input: " +:+ q2)]]
       /\ infix (repr_messages (history_of sid w ++ [HumanMessage q1; AIMessage a1])) sys.
Proof.
  intros Hok first second Ha. subst second.
  pose proof (chatbot_response_run repr_messages gemini q1 m1 llm data (Some sid) w Hok)
    as Hrun.
  cbv zeta in Hrun. change (default "default" (Some sid)) with sid in Hrun.
  fold first in Hrun. clearbody first.
  destruct (gemini (log w) llm _) as [text|e] in Hrun;
    rewrite Hrun in Ha; cbn [fst] in Ha; [|discriminate].
  injection Ha as ->.
  assert (Hh : history_of sid first.2
               = history_of sid w ++ [HumanMessage q1; AIMessage a1]).
  { rewrite Hrun. cbn [snd]. apply history_of_inserted. }
  split; [exact Hh|].
  assert (Hok2 : history_ok sid first.2).
  { rewrite Hrun. cbn [snd]. unfold history_ok.
    cbn [session_state set_session_state]. now rewrite lookup_insert_eq. }
  pose proof (chatbot_response_run repr_messages gemini q2 m2 llm data (Some sid)
                first.2 Hok2) as Hrun2.
  cbv zeta in Hrun2. change (default "default" (Some sid)) with sid in Hrun2.
  destruct (get_session_history_lookup sid first.2 Hok2) as (_ & _ & Hl2).
  rewrite Hh in Hrun2.
  exists (system_text repr_messages data
            (history_of sid w ++ [HumanMessage q1; AIMessage a1]) m2 q2).
  split.
  - rewrite Hrun2.
    destruct (gemini (log first.2) llm _);
      cbn [snd log set_session_state emit]; rewrite requests_app, Hl2;
      unfold assembled_prompt, human_text; now rewrite !append_assoc.
  - unfold system_text. do 3 apply infix_app_l. apply infix_here.
Qed.

Lemma conversation_memory_witness :
  let llm := {| model := "gemini-1.5-flash"; google_api_key := "k" |} in
  let first :=
    chatbot_response Stub.repr_messages (Stub.replies "Learn Python.") "What skills?"
      "Art" (main_runnable llm) load_career_data (Some "s1") Stub.empty_world in
  history_ok "s1" Stub.empty_world
  /\ history_of "s1" first.2 = [HumanMessage "What skills?"; AIMessage "Learn Python."].
Proof.
  intros llm first. split; [exact I|].
  apply (conversation_memory Stub.repr_messages (Stub.replies "Learn Python.") llm
           load_career_data "s1" Stub.empty_world "What skills?" "Art" "Learn Python."
           "And then?" "Art" I eq_refl).
Defined.



(** X10: session ids and the transcript share [st.session_state].  Once
    the transcript is stored, [get_session_history("messages")] creates
    nothing and returns the list of turns itself, which is not a chat
    history; a call of [chatbot_response] under that id raises before any
    request is made and changes nothing. *)
Theorem transcript_key_is_not_a_session
    (repr_messages : list BaseMessage -> string)
    (gemini : list Event -> ChatModel -> list BaseMessage -> result string)
    (r : RunnableWithMessageHistory) (data : list (string * KnowledgeEntry))
    (w : World) (l : list Turn) (user_input major : string) :
  session_history_factory r = get_session_history ->
  session_state w !! "messages" = Some (TurnList l) ->
  get_session_history "messages" w = (Ok (TurnList l), w)
  /\ exists e,
       chatbot_response repr_messages gemini user_input major r data (Some "messages") w
       = (Raise e, w).
Proof.
  intros Hf Hl. split.
  - unfold get_session_history. now rewrite Hl.
  - eexists. now apply (chatbot_response_not_history _ _ _ _ _ _ (Some "messages") w l).
Qed.

Lemma transcript_key_is_not_a_session_witness :
  let w := (init_messages Stub.empty_world).2 in
  session_state w !! "messages" = Some (TurnList [])
  /\ get_session_history "messages" w = (Ok (TurnList []), w).
Proof.
  intros w. split; [reflexivity|].
  apply (transcript_key_is_not_a_session Stub.repr_messages (Stub.replies "hello")
           (main_runnable {| model := "gemini-1.5-flash"; google_api_key := "k" |})
           load_career_data w [] "q" "m" eq_refl eq_refl).
Defined.

(** ** [load_dotenv()] at every run *)

Lemma load_dotenv_found w lines :
  files w !! ".env" = Some lines ->
  load_dotenv w
  = (Ok (negb (bool_decide (lines = []))),
     set_environ (environ w ∪ dotenv_values lines) w).
Proof. intros H. unfold load_dotenv. now rewrite H. Qed.

Lemma load_dotenv_missing w :
  files w !! ".env" = None -> load_dotenv w = (Ok false, w).
Proof. intros H. unfold load_dotenv. now rewrite H. Qed.

Lemma load_dotenv_again w :
  load_dotenv (load_dotenv w).2 = ((load_dotenv w).1, (load_dotenv w).2).
Proof.
  destruct (files w !! ".env") as [lines|] eqn:E.
  - rewrite (load_dotenv_found w lines E). cbn [fst snd].
    rewrite (load_dotenv_found (set_environ (environ w ∪ dotenv_values lines) w)
               lines E).
    unfold set_environ. cbn [files environ session_state log].
    rewrite <- (assoc_L (∪)), (idemp_L (∪)). reflexivity.
  - rewrite (load_dotenv_missing w E). cbn [fst snd].
    now rewrite (load_dotenv_missing w E).
Qed.

Lemma load_dotenv_environ x y :
  files x = files y -> environ x = environ y ->
  environ (load_dotenv x).2 = environ (load_dotenv y).2.
Proof.
  intros Hf He. unfold load_dotenv. rewrite Hf.
  destruct (files y !! ".env"); cbn [snd environ set_environ]; now rewrite He.
Qed.

(** [main] leaves [os.environ] alone. *)
Lemma main_environ repr_messages CG gemini ui w :
  environ (main repr_messages CG gemini ui w).2 = environ w.
Proof.
  revert w.
  apply (keeps_main (fun w w' => environ w' = environ w)) with (sid := "default");
    try reflexivity.
  - intros a b c H1 H2. now rewrite H2.
  - intros w. unfold get_session_history.
    now destruct (session_state w !! "default").
  - intros new w. unfold add_messages.
    now destruct (session_state w !! "default") as [[l|l]|].
  - intros w. unfold init_messages. now destruct (session_state w !! "messages").
  - intros t w. unfold messages_append.
    now destruct (session_state w !! "messages") as [[l|l]|].
Qed.

(** X11: [load_dotenv()] never changes a variable the environment already
    has, touches nothing but the environment, and run again changes
    nothing more.  A run of the script changes the environment through
    [load_dotenv()] only, so the environment the first run leaves is the
    one every later run leaves. *)
Theorem load_dotenv_keeps_environment
    (repr_messages : list BaseMessage -> string)
    (CG : string -> string -> result ChatModel)
    (gemini : list Event -> ChatModel -> list BaseMessage -> result string)
    (ui ui' : Widgets) (w : World) :
  (forall name value,
     environ w !! name = Some value ->
     environ (load_dotenv w).2 !! name = Some value)
  /\ session_state (load_dotenv w).2 = session_state w
  /\ log (load_dotenv w).2 = log w
  /\ files (load_dotenv w).2 = files w
  /\ load_dotenv (load_dotenv w).2 = ((load_dotenv w).1, (load_dotenv w).2)
  /\ environ (script repr_messages CG gemini ui w).2 = environ (load_dotenv w).2
  /\ environ (script repr_messages CG gemini ui'
                (script repr_messages CG gemini ui w).2).2
     = environ (script repr_messages CG gemini ui w).2.
Proof.
  destruct (load_dotenv_same w) as (Hs & Hl & Hf).
  assert (Hrun : forall u x,
            environ (script repr_messages CG gemini u x).2 = environ (load_dotenv x).2)
    by (intros u x; rewrite script_main; apply main_environ).
  split; [|split; [exact Hs|split; [exact Hl|split; [exact Hf|split;
           [apply load_dotenv_again|split; [apply Hrun|]]]]]].
  - intros name value H.
    unfold load_dotenv. destruct (files w !! ".env"); cbn [snd]; [|exact H].
    cbn [environ set_environ]. now apply lookup_union_Some_l.
  - rewrite (Hrun ui' _).
    set (w1 := (script repr_messages CG gemini ui w).2).
    assert (He : environ w1 = environ (load_dotenv w).2) by apply Hrun.
    assert (Hfi : files w1 = files (load_dotenv w).2).
    { subst w1. rewrite script_main.
      now rewrite (blind_files _ _ (blind_main repr_messages CG gemini ui)). }
    rewrite (load_dotenv_environ w1 (load_dotenv w).2) by (now rewrite ?Hfi).
    rewrite load_dotenv_again. cbn [snd]. now rewrite He.
Qed.

(** ** The variables of the prompt *)

(** X12: the template of [get_prompt_template] formats exactly when the
    inputs hold all four of "career_data", "chat_history", "major" and
    "user_input", the second as a list of messages; with any of them
    missing it raises.  So the chain [prompt | llm] run on the inputs of
    [chatbot_response] without the history wrapper raises for want of
    "chat_history", before any request is made. *)
Theorem prompt_needs_all_inputs
    (repr_messages : list BaseMessage -> string)
    (gemini : list Event -> ChatModel -> list BaseMessage -> result string)
    (inputs : gmap string InputValue) (llm : ChatModel)
    (user_input major : string) (data : list (string * KnowledgeEntry)) (w : World) :
  get_prompt_template = Ok prompt_template
  /\ ((exists ms, format_messages repr_messages inputs prompt_template = Ok ms)
      <-> (is_Some (inputs !! "career_data")
           /\ is_Some (inputs !! "major")
           /\ is_Some (inputs !! "user_input")
           /\ exists l, inputs !! "chat_history" = Some (VMessages l)))
  /\ exists what,
       sequence_invoke repr_messages gemini
         {| first_step := prompt_template; last_step := llm |}
         (chatbot_inputs user_input major data) w
       = (Raise (Exception "KeyError" what), w).
Proof.
  split; [apply get_prompt_template_ok|]. split.
  - unfold prompt_template.
    cbn [format_messages format_one format_segments]. unfold format_field.
    destruct (inputs !! "career_data") as [[?|?]|];
      destruct (inputs !! "chat_history") as [[?|?]|];
      destruct (inputs !! "major") as [[?|?]|];
      destruct (inputs !! "user_input") as [[?|?]|];
      (split;
       [ intros [ms H]; try discriminate H; repeat split; eauto
       | intros ([? H1] & [? H2] & [? H3] & [? H4]);
         try discriminate H1; try discriminate H2; try discriminate H3;
         try discriminate H4; eauto ]).
  - exists "chat_history". unfold sequence_invoke, bind, lift. cbn [first_step].
    assert (Hc : chatbot_inputs user_input major data !! "chat_history" = None).
    { unfold chatbot_inputs. cbv zeta.
      rewrite !lookup_insert_ne by (intros ?; discriminate). apply lookup_empty. }
    assert (Hd : exists J, chatbot_inputs user_input major data !! "career_data"
                           = Some (VStr J)).
    { unfold chatbot_inputs. cbv zeta. eexists. apply lookup_insert_eq. }
    destruct Hd as [J Hd].
    unfold prompt_template.
    cbn [format_messages format_one format_segments]. unfold format_field.
    rewrite Hc, Hd. reflexivity.
Qed.

(** ** The knowledge table as text *)

Lemma string_forall_app P a b :
  string_forall P (a +:+ b) = (string_forall P a && string_forall P b)%bool.
Proof.
  induction a as [|c a IH]; [reflexivity|].
  change (string_forall P (String c (a +:+ b))
          = (string_forall P (String c a) && string_forall P b)%bool).
  cbn [string_forall]. now rewrite IH, andb_assoc.
Qed.

Lemma escape_char_printable c : string_forall printable (Json.escape_char c) = true.
Proof. destruct c as [[] [] [] [] [] [] [] []]; vm_compute; reflexivity. Qed.

Lemma unescape_escape_char c rest :
  unescape (Json.escape_char c +:+ rest) = String c (unescape rest).
Proof. destruct c as [[] [] [] [] [] [] [] []]; reflexivity. Qed.

Lemma unescape_escape s : unescape (Json.escape s) = s.
Proof.
  induction s as [|c s IH]; [reflexivity|].
  change (Json.escape (String c s)) with (Json.escape_char c +:+ Json.escape s).
  now rewrite unescape_escape_char, IH.
Qed.

(** X13: the escaping [json.dumps] applies to every string of the table
    writes printable ASCII only, and loses nothing: the escapes read back
    give the string, so two different strings never get the same text. *)
Theorem escape_printable_and_faithful (s s' : string) :
  string_forall printable (Json.escape s) = true
  /\ unescape (Json.escape s) = s
  /\ (Json.escape s = Json.escape s' -> s = s')
  /\ (Json.encode_string s = Json.encode_string s' -> s = s').
Proof.
  assert (Hinj : forall a b, Json.escape a = Json.escape b -> a = b).
  { intros a b H. rewrite <- (unescape_escape a), <- (unescape_escape b). now rewrite H. }
  split; [|split; [apply unescape_escape|split; [apply Hinj|]]].
  - induction s as [|c s IH]; [reflexivity|].
    change (Json.escape (String c s)) with (Json.escape_char c +:+ Json.escape s).
    now rewrite string_forall_app, escape_char_printable, IH.
  - unfold Json.encode_string. intros H.
    assert (Hu : forall a rest, unescape (Json.escape a +:+ rest) = a +:+ unescape rest).
    { intros a rest. induction a as [|c a IH]; [reflexivity|].
      change (Json.escape (String c a)) with (Json.escape_char c +:+ Json.escape a).
      rewrite append_assoc, unescape_escape_char, IH. reflexivity. }
    change (String (ascii_of_nat 34) (Json.escape s +:+ dq)
            = String (ascii_of_nat 34) (Json.escape s' +:+ dq)) in H.
    injection H as H. apply (f_equal unescape) in H. rewrite !Hu in H.
    change (unescape dq) with dq in H.
    revert s' H. induction s as [|c s IH]; intros [|c' s'] H.
    + reflexivity.
    + change (String (ascii_of_nat 34) EmptyString = String c' (s' +:+ dq)) in H.
      injection H as _ H. destruct s'; cbv in H; discriminate H.
    + change (String c (s +:+ dq) = String (ascii_of_nat 34) EmptyString) in H.
      injection H as _ H. destruct s; cbv in H; discriminate H.
    + change (String c (s +:+ dq) = String c' (s' +:+ dq)) in H.
      injection H as -> H. f_equal. now apply IH.
Qed.

Lemma infix_refl x : infix x x.
Proof. exists EmptyString, EmptyString. now rewrite append_nil_r. Qed.

Lemma infix_trans a b c : infix a b -> infix b c -> infix a c.
Proof.
  intros (p1 & q1 & ->) (p2 & q2 & ->).
  exists (p2 +:+ p1), (q1 +:+ q2). now rewrite !append_assoc.
Qed.

Lemma infix_join sep x l : In x l -> infix x (Json.join sep l).
Proof.
  induction l as [|y l IH]; [intros []|].
  intros [->|H].
  - destruct l as [|z l]; [apply infix_refl|].
    change (infix x (x +:+ sep +:+ Json.join sep (z :: l))). apply infix_here.
  - destruct l as [|z l]; [destruct H|].
    change (infix x (y +:+ sep +:+ Json.join sep (z :: l))).
    do 2 apply infix_app_l. now apply IH.
Qed.

(** X14: the table goes into every request whole: whatever the major
    typed, in the table or not, and for any table, the system message
    contains the text [json.dumps] makes of the table, and so, for every
    major of the table, its name and its entry.  The major typed is not
    used to look anything up. *)
Theorem prompt_carries_whole_table
    (repr_messages : list BaseMessage -> string)
    (data : list (string * KnowledgeEntry)) (past : list BaseMessage)
    (major user_input : string) (M : string) (e : KnowledgeEntry) :
  In (M, e) data ->
  exists sys,
    format_messages repr_messages
      (<["chat_history" := VMessages past]> (chatbot_inputs user_input major data))
      prompt_template
    = Ok (SystemMessage sys
            :: past ++ [HumanMessage ("Major: " +:+ major +:+ nl +:+ "Input: " +:+ user_input)])
    /\ infix (Json.dumps (career_data_to_json data) 2) sys
    /\ infix (Json.encode_string M +:+ ": " +:+ Json.dumps_at 2 1 (entry_to_json e)) sys.
Proof.
  intros Hin.
  exists (system_text repr_messages data past major user_input).
  split.
  { rewrite format_prompt_template. unfold assembled_prompt, human_text.
    now rewrite !append_assoc. }
  assert (Hsys : infix (Json.dumps (career_data_to_json data) 2)
                   (system_text repr_messages data past major user_input)).
  { unfold system_text. apply infix_app_l, infix_here. }
  split; [exact Hsys|].
  apply (infix_trans _ (Json.dumps (career_data_to_json data) 2)); [|exact Hsys].
  clear Hsys. destruct data as [|x xs]; [destruct Hin|].
  set (f := fun kv : string * Json.value =>
              let (k, v) := kv in
              Json.encode_string k +:+ ": " +:+ Json.dumps_at 2 1 v).
  set (members := map (fun kv : string * KnowledgeEntry => (fst kv, entry_to_json (snd kv)))
                    (x :: xs)).
  assert (Hd : Json.dumps (career_data_to_json (x :: xs)) 2
               = "{" +:+ (nl +:+ Json.spaces 2)
                 +:+ Json.join ("," +:+ nl +:+ Json.spaces 2) (map f members)
                 +:+ (nl +:+ Json.spaces 0) +:+ "}") by reflexivity.
  rewrite Hd. do 2 apply infix_app_l. apply infix_app_r.
  apply infix_join.
  change (Json.encode_string M +:+ ": " +:+ Json.dumps_at 2 1 (entry_to_json e))
    with (f (M, entry_to_json e)).
  apply in_map. subst members.
  change (M, entry_to_json e)
    with ((fun kv : string * KnowledgeEntry => (fst kv, entry_to_json (snd kv))) (M, e)).
  now apply in_map.
Qed.

Lemma prompt_carries_whole_table_witness :
  exists e sys,
    In ("Biology", e) load_career_data
    /\ format_messages Stub.repr_messages
         (<["chat_history" := VMessages []]>
            (chatbot_inputs "What next?" "Astronomy" load_career_data))
         prompt_template
       = Ok (SystemMessage sys
               :: [] ++ [HumanMessage ("Major: " +:+ "Astronomy" +:+ nl
                                       +:+ "Input: " +:+ "What next?")]).
Proof.
  eexists.
  assert (Hin : In ("Biology",
                    {| careers := ["Biomedical Researcher"; "Environmental Scientist";
                                   "Pharmacist"];
                       skills := ["Research"; "Lab Techniques"; "Data Analysis"];
                       resources := ["PubMed"; "Khan Academy"; "Nature Journal"] |})
                  load_career_data) by (simpl; tauto).
  destruct (prompt_carries_whole_table Stub.repr_messages load_career_data []
              "Astronomy" "What next?" _ _ Hin) as (sys & H & _).
  exists sys. split; [exact Hin|exact H].
Defined.

(** ** What [main] asks the model *)

(** X15: in a run that has its credential and its client, with a major
    and a question typed, from a state of the program's making: the one
    request goes to the model after the question has been shown; it
    carries the system message, then the history kept under "default",
    then the human message made of the major and the question; and what
    is shown next, last in the run, is the model's reply to that very
    request as an assistant message, or its exception as an error
    message. *)
Theorem main_asks_with_history
    (repr_messages : list BaseMessage -> string)
    (CG : string -> string -> result ChatModel)
    (gemini : list Event -> ChatModel -> list BaseMessage -> result string)
    (ui : Widgets) (w : World) (api_key : string) (llm : ChatModel) :
  credential ui w = Some api_key ->
  CG "gemini-1.5-flash" api_key = Ok llm ->
  wf w ->
  truthy (question_field ui) = true ->
  truthy (major_field ui) = true ->
  exists seen sys,
    let prompt :=
      SystemMessage sys
        :: history_of "default" w
        ++ [HumanMessage ("Major: " +:+ major_field ui +:+ nl
                          +:+ "Input: " +:+ question_field ui)] in
    log (main repr_messages CG gemini ui w).2
    = seen ++ [llm_request (google_api_key llm) prompt;
               match gemini seen llm prompt with
               | Ok answer => st_chat_message "assistant" answer
               | Raise e => st_error ("Error generating response: " +:+ str e)
               end]
    /\ last seen = Some (st_chat_message "user" (question_field ui))
    /\ infix (Json.dumps (career_data_to_json load_career_data) 2) sys
    /\ infix (repr_messages (history_of "default" w)) sys.
Proof.
  intros Hc Hg Hwf Hq Hmaj. pose proof Hwf as [Hm Hd].
  rewrite (main_interaction _ _ _ _ _ _ _ Hc Hg Hm).
  destruct (handle_input_run repr_messages gemini (question_field ui) (major_field ui)
              (main_runnable llm) load_career_data (ready ui w) (transcript w)
              eq_refl Hq Hmaj (ready_messages ui w Hm)) as (_ & ->).
  pose proof (chatbot_response_run repr_messages gemini (question_field ui)
                (major_field ui) llm load_career_data None
                (after_user_turn (question_field ui) (ready ui w))
                (wf_ready_default ui w _ Hwf)) as Hrun.
  cbv zeta in Hrun. cbn [default] in Hrun.
  set (w1 := after_user_turn (question_field ui) (ready ui w)) in *.
  assert (Hpast : history_of "default" w1 = history_of "default" w).
  { unfold history_of. subst w1. now rewrite after_user_turn_default. }
  rewrite Hpast in Hrun.
  destruct (get_session_history_lookup "default" w1 (wf_ready_default ui w _ Hwf))
    as (_ & _ & Hl1).
  assert (Hlast : last (log w1) = Some (st_chat_message "user" (question_field ui))).
  { subst w1. rewrite (after_user_turn_state _ _ _ (ready_messages ui w Hm)).
    cbn [log set_session_state emit]. apply last_snoc. }
  exists (log w1),
    (system_text repr_messages load_career_data (history_of "default" w)
       (major_field ui) (question_field ui)).
  cbv zeta.
  assert (Hp : assembled_prompt repr_messages load_career_data (history_of "default" w)
                 (major_field ui) (question_field ui)
               = SystemMessage
                   (system_text repr_messages load_career_data (history_of "default" w)
                      (major_field ui) (question_field ui))
                   :: history_of "default" w
                   ++ [HumanMessage ("Major: " +:+ major_field ui +:+ nl
                                     +:+ "Input: " +:+ question_field ui)]).
  { unfold assembled_prompt, human_text. now rewrite !append_assoc. }
  rewrite Hp in Hrun. rewrite Hrun.
  split.
  { destruct (gemini (log w1) llm _); cbn [fst snd log set_session_state emit];
      rewrite Hl1, <- app_assoc; reflexivity. }
  split; [exact Hlast|].
  unfold system_text. split.
  - apply infix_app_l, infix_here.
  - do 3 apply infix_app_l. apply infix_here.
Qed.

Lemma main_asks_with_history_witness :
  let ui := Stub.ask "Biology" "What next?" in
  wf Stub.world_with_key
  /\ exists seen,
       last seen = Some (st_chat_message "user" (question_field ui)).
Proof.
  intros ui.
  assert (H : wf Stub.world_with_key) by (split; exact I).
  split; [exact H|].
  destruct (main_asks_with_history Stub.repr_messages Stub.client
              (Stub.replies "Learn Python.") ui Stub.world_with_key "k"
              {| model := "gemini-1.5-flash"; google_api_key := "k" |}
              eq_refl eq_refl H eq_refl eq_refl) as (seen & sys & _ & Hl & _).
  now exists seen.
Defined.

(** ** The session id of [main] *)

(** What a run with a major and a question does with the history: it is
    read and written under "default". *)
Lemma interaction_request repr_messages CG gemini ui w api_key llm :
  credential ui w = Some api_key ->
  CG "gemini-1.5-flash" api_key = Ok llm ->
  wf w ->
  truthy (question_field ui) = true ->
  truthy (major_field ui) = true ->
  exists seen sys,
    let prompt :=
      SystemMessage sys
        :: history_of "default" w
        ++ [HumanMessage ("Major: " +:+ major_field ui +:+ nl
                          +:+ "Input: " +:+ question_field ui)] in
    log (main repr_messages CG gemini ui w).2
    = seen ++ [llm_request (google_api_key llm) prompt;
               match gemini seen llm prompt with
               | Ok answer => st_chat_message "assistant" answer
               | Raise e => st_error ("Error generating response: " +:+ str e)
               end]
    /\ requests seen = requests (log w)
    /\ session_state (main repr_messages CG gemini ui w).2 !! "default"
       = Some (ChatMessageHistory
                 match gemini seen llm prompt with
                 | Ok answer =>
                     history_of "default" w
                     ++ [HumanMessage (question_field ui); AIMessage answer]
                 | Raise _ => history_of "default" w
                 end).
Proof.
  intros Hc Hg Hwf Hq Hmaj. pose proof Hwf as [Hm Hd].
  rewrite (main_interaction _ _ _ _ _ _ _ Hc Hg Hm).
  destruct (handle_input_run repr_messages gemini (question_field ui) (major_field ui)
              (main_runnable llm) load_career_data (ready ui w) (transcript w)
              eq_refl Hq Hmaj (ready_messages ui w Hm)) as (_ & ->).
  pose proof (chatbot_response_run repr_messages gemini (question_field ui)
                (major_field ui) llm load_career_data None
                (after_user_turn (question_field ui) (ready ui w))
                (wf_ready_default ui w _ Hwf)) as Hrun.
  cbv zeta in Hrun. cbn [default] in Hrun.
  set (w1 := after_user_turn (question_field ui) (ready ui w)) in *.
  assert (Hpast : history_of "default" w1 = history_of "default" w).
  { unfold history_of. subst w1. now rewrite after_user_turn_default. }
  rewrite Hpast in Hrun.
  destruct (get_session_history_lookup "default" w1 (wf_ready_default ui w _ Hwf))
    as (_ & Hs1 & Hl1).
  rewrite Hpast in Hs1.
  assert (Hreq : requests (log w1) = requests (log w)).
  { destruct (ready_shown ui w) as (evs & Hevs & Hnone & _).
    subst w1. rewrite (after_user_turn_state _ _ _ (ready_messages ui w Hm)).
    cbn [log set_session_state emit].
    rewrite Hevs, !requests_app, Hnone. cbn. now rewrite !app_nil_r. }
  exists (log w1),
    (system_text repr_messages load_career_data (history_of "default" w)
       (major_field ui) (question_field ui)).
  cbv zeta.
  assert (Hp : assembled_prompt repr_messages load_career_data (history_of "default" w)
                 (major_field ui) (question_field ui)
               = SystemMessage
                   (system_text repr_messages load_career_data (history_of "default" w)
                      (major_field ui) (question_field ui))
                   :: history_of "default" w
                   ++ [HumanMessage ("Major: " +:+ major_field ui +:+ nl
                                     +:+ "Input: " +:+ question_field ui)]).
  { unfold assembled_prompt, human_text. now rewrite !append_assoc. }
  rewrite Hp in Hrun. rewrite Hrun.
  destruct (gemini (log w1) llm _) as [answer|e];
    cbn [fst snd log session_state set_session_state emit].
  - split; [rewrite Hl1, <- app_assoc; reflexivity|]. split; [exact Hreq|].
    rewrite lookup_insert_ne by discriminate. apply lookup_insert_eq.
  - split; [rewrite Hl1, <- app_assoc; reflexivity|]. split; [exact Hreq|exact Hs1].
Qed.

(** C9: leaving [session_id] out is the same call as passing "default",
    and that is how [main] calls [chatbot_response].  A run of [main] that
    gets to ask the model reads the history under "default" (the request
    carries exactly the turns stored there) and writes under "default"
    (after the run that key holds those turns, with the new exchange
    added when the model answered).  Every run leaves the history under
    every other id as it was, and changes no key of [st.session_state]
    other than "messages" and "default"; [chatbot_response] called
    without an id changes no key other than "default". *)
Theorem single_default_session
    (repr_messages : list BaseMessage -> string)
    (CG : string -> string -> result ChatModel)
    (gemini : list Event -> ChatModel -> list BaseMessage -> result string)
    (ui : Widgets) (w : World) (user_input major : string)
    (r : RunnableWithMessageHistory) (data : list (string * KnowledgeEntry))
    (k : string) (api_key : string) (llm : ChatModel) :
  k <> "default" ->
  chatbot_response repr_messages gemini user_input major r data None
  = chatbot_response repr_messages gemini user_input major r data (Some "default")
  /\ history_of k (main repr_messages CG gemini ui w).2 = history_of k w
  /\ (k <> "messages" ->
      session_state (main repr_messages CG gemini ui w).2 !! k = session_state w !! k)
  /\ (session_history_factory r = get_session_history ->
      session_state
        (chatbot_response repr_messages gemini user_input major r data None w).2 !! k
      = session_state w !! k)
  /\ (credential ui w = Some api_key ->
      CG "gemini-1.5-flash" api_key = Ok llm ->
      wf w ->
      truthy (question_field ui) = true ->
      truthy (major_field ui) = true ->
      exists seen sys,
        let prompt :=
          SystemMessage sys
            :: history_of "default" w
            ++ [HumanMessage ("Major: " +:+ major_field ui +:+ nl
                              +:+ "Input: " +:+ question_field ui)] in
        log (main repr_messages CG gemini ui w).2
        = seen ++ [llm_request (google_api_key llm) prompt;
                   match gemini seen llm prompt with
                   | Ok answer => st_chat_message "assistant" answer
                   | Raise e => st_error ("Error generating response: " +:+ str e)
                   end]
        /\ requests seen = requests (log w)
        /\ session_state (main repr_messages CG gemini ui w).2 !! "default"
           = Some (ChatMessageHistory
                     match gemini seen llm prompt with
                     | Ok answer =>
                         history_of "default" w
                         ++ [HumanMessage (question_field ui); AIMessage answer]
                     | Raise _ => history_of "default" w
                     end)).
Proof.
  intros Hk. split; [reflexivity|].
  split; [now apply main_same_histories|].
  split; [|split].
  - intros Hm. apply main_outside. unfold program_key. tauto.
  - intros Hf. apply (chatbot_response_outside _ _ _ _ _ _ None Hf w k).
    cbn [default]. congruence.
  - apply interaction_request.
Qed.

Lemma single_default_session_witness :
  let out :=
    main Stub.repr_messages Stub.client (Stub.replies "Learn Python.")
      (Stub.ask "Biology" "What next?") Stub.world_with_key in
  "s1" <> "default"
  /\ wf Stub.world_with_key
  /\ history_of "s1" out.2 = history_of "s1" Stub.world_with_key
  /\ session_state out.2 !! "default"
     = Some (ChatMessageHistory [HumanMessage "What next?"; AIMessage "Learn Python."]).
Proof.
  intros out.
  assert (Hne : "s1" <> "default") by discriminate.
  assert (Hwf : wf Stub.world_with_key) by (split; exact I).
  destruct (single_default_session Stub.repr_messages Stub.client
              (Stub.replies "Learn Python.") (Stub.ask "Biology" "What next?")
              Stub.world_with_key "What next?" "Biology"
              (main_runnable {| model := "gemini-1.5-flash"; google_api_key := "k" |})
              load_career_data "s1" "k"
              {| model := "gemini-1.5-flash"; google_api_key := "k" |} Hne)
    as (_ & H2 & _ & _ & H5).
  destruct (H5 eq_refl eq_refl Hwf eq_refl eq_refl) as (seen & sys & _ & _ & H).
  split; [exact Hne|]. split; [exact Hwf|]. split; [exact H2|exact H].
Defined.
